(** * fmriprep command-line supervisor: [fmriprep/cli/run.py]

    A shallow embedding of [main] and [build_workflow] and the properties
    of the launch supervisor: license resolution, the isolated build worker
    and its result dictionary, the thread planner, the reports-only
    short-circuit, graph execution and the composition of the exit status.

    Python objects that cross the worker boundary are values of [pyobj];
    dictionaries ([retval], [plugin_settings], the nipype configuration,
    [os.environ]) are finite maps with string keys.  External collaborators
    (the file system, the dataset layout, the report generator, the graph
    builder and the execution engine) are fields of a [World] record. *)

From stdpp Require Import gmap strings list fin_maps.
From Stdlib Require Import ZArith QArith Ascii String.

#[local] Set Warnings "-register-all".
#[local] Open Scope string_scope.
#[local] Open Scope Z_scope.

(** ** Strings and paths *)

(** [pat in s] on Python strings. *)
Fixpoint contains (pat s : string) : bool :=
  String.prefix pat s ||
  match s with
  | EmptyString => false
  | String _ s' => contains pat s'
  end.

(** [s.startswith(pat)] and [s.endswith("/")]. *)
Definition startswith (pat s : string) : bool := String.prefix pat s.

Fixpoint endswith_sep (s : string) : bool :=
  match s with
  | EmptyString => false
  | String c EmptyString => Ascii.eqb c "/"%char
  | String _ s' => endswith_sep s'
  end.

(** One step of [posixpath.join]: an absolute component restarts the path,
    otherwise it is appended with exactly one separator. *)
Definition join2 (path b : string) : string :=
  if startswith "/" b then b
  else if (String.eqb path "" || endswith_sep path)%bool then path +:+ b
  else path +:+ "/" +:+ b.

(** [os.path.join(a, *p)]. *)
Definition join (a : string) (p : list string) : string := fold_left join2 p a.

(** [sep.join(l)]. *)
Definition str_join (sep : string) (l : list string) : string := String.concat sep l.

(** Membership in a list of strings: [x in l]. *)
Definition str_in (x : string) (l : list string) : bool := existsb (String.eqb x) l.

(** Truthiness of an optional string ([None] and [''] are false). *)
Definition truthy (o : option string) : bool :=
  match o with
  | Some s => negb (String.eqb s "")
  | None => false
  end.

(** [x or d] for an optional string [x]. *)
Definition or_default (x : option string) (d : string) : string :=
  if truthy x then default "" x else d.

(** ** The parsed command line *)

Module opts.
(** The [argparse] namespace returned by [get_parser().parse_args()]:
    one field per destination, an optional argument without default
    being [None]. *)
Record t : Type := mk {
  bids_dir : string;
  output_dir : string;
  participant_label : option (list string);
  task_id : option string;
  debug : bool;
  nthreads : Z;
  omp_nthreads : Z;
  mem_mb : Z;
  low_mem : bool;
  use_plugin : option string;
  anat_only : bool;
  ignore_aroma_denoising_errors : bool;
  verbose_count : Z;
  ignore : list string;
  longitudinal : bool;
  t2s_coreg : bool;
  bold2t1w_dof : Z;
  output_space : list string;
  use_bbr : option bool;
  template : string;
  output_grid_reference : option string;
  medial_surface_nan : bool;
  use_aroma : bool;
  skull_strip_template : string;
  fmap_bspline : bool;
  fmap_no_demean : bool;
  use_syn_sdc : bool;
  force_syn : bool;
  run_reconall : bool;
  hires : bool;
  fs_license_file : option string;
  work_dir : option string;
  resource_monitor : bool;
  reports_only : bool;
  run_uuid : option string;
  write_graph : bool;
  stop_on_first_crash : bool
}.

(** Functional updates of single options. *)
Definition with_omp_nthreads v (o : t) : t :=
  mk (bids_dir o) (output_dir o) (participant_label o) (task_id o) (debug o)
    (nthreads o) v (mem_mb o) (low_mem o) (use_plugin o) (anat_only o)
    (ignore_aroma_denoising_errors o) (verbose_count o) (ignore o) (longitudinal o)
    (t2s_coreg o) (bold2t1w_dof o) (output_space o) (use_bbr o) (template o)
    (output_grid_reference o) (medial_surface_nan o) (use_aroma o)
    (skull_strip_template o) (fmap_bspline o) (fmap_no_demean o) (use_syn_sdc o)
    (force_syn o) (run_reconall o) (hires o) (fs_license_file o) (work_dir o)
    (resource_monitor o) (reports_only o) (run_uuid o) (write_graph o)
    (stop_on_first_crash o).
Definition with_use_plugin v (o : t) : t :=
  mk (bids_dir o) (output_dir o) (participant_label o) (task_id o) (debug o)
    (nthreads o) (omp_nthreads o) (mem_mb o) (low_mem o) v (anat_only o)
    (ignore_aroma_denoising_errors o) (verbose_count o) (ignore o) (longitudinal o)
    (t2s_coreg o) (bold2t1w_dof o) (output_space o) (use_bbr o) (template o)
    (output_grid_reference o) (medial_surface_nan o) (use_aroma o)
    (skull_strip_template o) (fmap_bspline o) (fmap_no_demean o) (use_syn_sdc o)
    (force_syn o) (run_reconall o) (hires o) (fs_license_file o) (work_dir o)
    (resource_monitor o) (reports_only o) (run_uuid o) (write_graph o)
    (stop_on_first_crash o).
Definition with_output_space v (o : t) : t :=
  mk (bids_dir o) (output_dir o) (participant_label o) (task_id o) (debug o)
    (nthreads o) (omp_nthreads o) (mem_mb o) (low_mem o) (use_plugin o) (anat_only o)
    (ignore_aroma_denoising_errors o) (verbose_count o) (ignore o) (longitudinal o)
    (t2s_coreg o) (bold2t1w_dof o) v (use_bbr o) (template o)
    (output_grid_reference o) (medial_surface_nan o) (use_aroma o)
    (skull_strip_template o) (fmap_bspline o) (fmap_no_demean o) (use_syn_sdc o)
    (force_syn o) (run_reconall o) (hires o) (fs_license_file o) (work_dir o)
    (resource_monitor o) (reports_only o) (run_uuid o) (write_graph o)
    (stop_on_first_crash o).
Definition with_use_aroma v (o : t) : t :=
  mk (bids_dir o) (output_dir o) (participant_label o) (task_id o) (debug o)
    (nthreads o) (omp_nthreads o) (mem_mb o) (low_mem o) (use_plugin o) (anat_only o)
    (ignore_aroma_denoising_errors o) (verbose_count o) (ignore o) (longitudinal o)
    (t2s_coreg o) (bold2t1w_dof o) (output_space o) (use_bbr o) (template o)
    (output_grid_reference o) (medial_surface_nan o) v (skull_strip_template o)
    (fmap_bspline o) (fmap_no_demean o) (use_syn_sdc o) (force_syn o) (run_reconall o)
    (hires o) (fs_license_file o) (work_dir o) (resource_monitor o) (reports_only o)
    (run_uuid o) (write_graph o) (stop_on_first_crash o).
Definition with_fs_license_file v (o : t) : t :=
  mk (bids_dir o) (output_dir o) (participant_label o) (task_id o) (debug o)
    (nthreads o) (omp_nthreads o) (mem_mb o) (low_mem o) (use_plugin o) (anat_only o)
    (ignore_aroma_denoising_errors o) (verbose_count o) (ignore o) (longitudinal o)
    (t2s_coreg o) (bold2t1w_dof o) (output_space o) (use_bbr o) (template o)
    (output_grid_reference o) (medial_surface_nan o) (use_aroma o)
    (skull_strip_template o) (fmap_bspline o) (fmap_no_demean o) (use_syn_sdc o)
    (force_syn o) (run_reconall o) (hires o) v (work_dir o) (resource_monitor o)
    (reports_only o) (run_uuid o) (write_graph o) (stop_on_first_crash o).
Definition with_work_dir v (o : t) : t :=
  mk (bids_dir o) (output_dir o) (participant_label o) (task_id o) (debug o)
    (nthreads o) (omp_nthreads o) (mem_mb o) (low_mem o) (use_plugin o) (anat_only o)
    (ignore_aroma_denoising_errors o) (verbose_count o) (ignore o) (longitudinal o)
    (t2s_coreg o) (bold2t1w_dof o) (output_space o) (use_bbr o) (template o)
    (output_grid_reference o) (medial_surface_nan o) (use_aroma o)
    (skull_strip_template o) (fmap_bspline o) (fmap_no_demean o) (use_syn_sdc o)
    (force_syn o) (run_reconall o) (hires o) (fs_license_file o) v
    (resource_monitor o) (reports_only o) (run_uuid o) (write_graph o)
    (stop_on_first_crash o).
Definition with_reports_only v (o : t) : t :=
  mk (bids_dir o) (output_dir o) (participant_label o) (task_id o) (debug o)
    (nthreads o) (omp_nthreads o) (mem_mb o) (low_mem o) (use_plugin o) (anat_only o)
    (ignore_aroma_denoising_errors o) (verbose_count o) (ignore o) (longitudinal o)
    (t2s_coreg o) (bold2t1w_dof o) (output_space o) (use_bbr o) (template o)
    (output_grid_reference o) (medial_surface_nan o) (use_aroma o)
    (skull_strip_template o) (fmap_bspline o) (fmap_no_demean o) (use_syn_sdc o)
    (force_syn o) (run_reconall o) (hires o) (fs_license_file o) (work_dir o)
    (resource_monitor o) v (run_uuid o) (write_graph o) (stop_on_first_crash o).
Definition with_run_uuid v (o : t) : t :=
  mk (bids_dir o) (output_dir o) (participant_label o) (task_id o) (debug o)
    (nthreads o) (omp_nthreads o) (mem_mb o) (low_mem o) (use_plugin o) (anat_only o)
    (ignore_aroma_denoising_errors o) (verbose_count o) (ignore o) (longitudinal o)
    (t2s_coreg o) (bold2t1w_dof o) (output_space o) (use_bbr o) (template o)
    (output_grid_reference o) (medial_surface_nan o) (use_aroma o)
    (skull_strip_template o) (fmap_bspline o) (fmap_no_demean o) (use_syn_sdc o)
    (force_syn o) (run_reconall o) (hires o) (fs_license_file o) (work_dir o)
    (resource_monitor o) (reports_only o) v (write_graph o) (stop_on_first_crash o).
Definition with_write_graph v (o : t) : t :=
  mk (bids_dir o) (output_dir o) (participant_label o) (task_id o) (debug o)
    (nthreads o) (omp_nthreads o) (mem_mb o) (low_mem o) (use_plugin o) (anat_only o)
    (ignore_aroma_denoising_errors o) (verbose_count o) (ignore o) (longitudinal o)
    (t2s_coreg o) (bold2t1w_dof o) (output_space o) (use_bbr o) (template o)
    (output_grid_reference o) (medial_surface_nan o) (use_aroma o)
    (skull_strip_template o) (fmap_bspline o) (fmap_no_demean o) (use_syn_sdc o)
    (force_syn o) (run_reconall o) (hires o) (fs_license_file o) (work_dir o)
    (resource_monitor o) (reports_only o) (run_uuid o) v (stop_on_first_crash o).
End opts.

(** ** The graph handle

    The execution graph is opaque to the supervisor.  A handle is identified
    by the keyword arguments [init_fmriprep_wf] was called with. *)
Record workflow : Type := mk_workflow {
  wf_subject_list : list string;
  wf_task_id : option string;
  wf_run_uuid : string;
  wf_ignore : list string;
  wf_debug : bool;
  wf_low_mem : bool;
  wf_anat_only : bool;
  wf_longitudinal : bool;
  wf_t2s_coreg : bool;
  wf_omp_nthreads : Z;
  wf_skull_strip_template : string;
  wf_work_dir : string;
  wf_output_dir : string;
  wf_bids_dir : string;
  wf_freesurfer : bool;
  wf_output_spaces : list string;
  wf_template : string;
  wf_medial_surface_nan : bool;
  wf_output_grid_ref : option string;
  wf_hires : bool;
  wf_use_bbr : option bool;
  wf_bold2t1w_dof : Z;
  wf_fmap_bspline : bool;
  wf_fmap_demean : bool;
  wf_use_syn : bool;
  wf_force_syn : bool;
  wf_use_aroma : bool;
  wf_ignore_aroma_err : bool
}.

(** ** Python values *)

Inductive pyobj : Type :=
  | PNone
  | PBool (b : bool)
  | PInt (z : Z)
  | PFloat (q : Q)
  | PStr (s : string)
  | PList (l : list pyobj)
  | PDict (d : gmap string pyobj)
  | PWorkflow (w : workflow).

(** A dictionary display [{k1: v1, ...}] with distinct keys. *)
Definition mkdict (l : list (string * pyobj)) : pyobj := PDict (list_to_map l).

(** [d[k]] on a value, [None] where Python raises. *)
Definition getitem (d : pyobj) (k : string) : option pyobj :=
  match d with
  | PDict m => m !! k
  | _ => None
  end.

(** [d[k] = v] on a value that is a dictionary. *)
Definition setitem (k : string) (v : pyobj) (d : pyobj) : pyobj :=
  match d with
  | PDict m => PDict (<[k := v]> m)
  | _ => d
  end.

(** [x is None] *)
Definition is_None (x : pyobj) : bool :=
  match x with
  | PNone => true
  | _ => false
  end.

Definition PStrList (l : list string) : pyobj := PList (PStr <$> l).

(** ** Exceptions *)

(** A raised exception: the names of its class and of the classes it
    derives from, and [str(e)]; [SystemExit] carries the exit code. *)
Inductive exn : Type :=
  | Exc (mro : list string) (msg : string)
  | SystemExit (code : Z).

Definition RuntimeError (msg : string) : exn := Exc ["RuntimeError"; "Exception"] msg.
Definition KeyError (key : string) : exn := Exc ["KeyError"; "LookupError"; "Exception"] key.
Definition TypeError (msg : string) : exn := Exc ["TypeError"; "Exception"] msg.
Definition AttributeError (msg : string) : exn := Exc ["AttributeError"; "Exception"] msg.

(** [isinstance(e, cls)], as an [except cls] clause tests it. *)
Definition isinstance (e : exn) (cls : string) : bool :=
  match e with
  | Exc mro _ => str_in cls mro
  | SystemExit _ => String.eqb cls "SystemExit"
  end.

(** [str(e)]. *)
Definition exn_str (e : exn) : string :=
  match e with
  | Exc _ msg => msg
  | SystemExit _ => ""
  end.

Inductive res (A : Type) : Type :=
  | Ok (a : A)
  | Raise (e : exn).
Arguments Ok {A} a.
Arguments Raise {A} e.

(** The status the interpreter hands to the operating system: 0 when the
    program returns, the code of [sys.exit], and 1 after an uncaught
    exception. *)
Definition exit_status {A} (r : res A) : Z :=
  match r with
  | Ok _ => 0
  | Raise (SystemExit c) => c
  | Raise (Exc _ _) => 1
  end.

(** ** Observable calls *)

Inductive event : Type :=
  | EvSetStartMethod (method : string)
  | EvSetLevel (logger : string) (level : Z)
  | EvProcessStart
  | EvProcessJoin
  | EvLog (level : Z) (fmt : string) (args : list pyobj)
  | EvMakedirs (path : string)
  | EvUpdateConfig (cfg : pyobj)
  | EvEnableResourceMonitor
  | EvGenerateReports (subject_list output_dir work_dir run_uuid : pyobj)
  | EvInitWf (w : workflow)
  | EvWriteGraph (w : workflow)
  | EvGcCollect
  | EvRun (w : workflow) (plugin_settings : pyobj).

(** ** The world outside the program *)

Record World : Type := mkWorld {
  (** [os.path.exists] *)
  path_exists : string -> bool;
  (** [os.path.abspath], which depends on the current directory *)
  abspath : string -> string;
  (** [multiprocessing.cpu_count()] *)
  cpu_count : Z;
  (** [strftime('%Y%m%d-%H%M%S')] and [str(uuid.uuid4())] *)
  strftime_now : string;
  uuid4 : string;
  (** the package version *)
  version : string;
  (** [collect_participants(bids_dir, participant_label=...)] *)
  collect_participants : string -> option (list string) -> res (list string);
  (** [open(path)] followed by [yaml.load] *)
  loadyml : string -> res pyobj;
  (** [os.makedirs(path, exist_ok=True)]: the exception raised, if any *)
  makedirs : string -> option exn;
  (** [generate_reports(subject_list, output_dir, work_dir, run_uuid)] *)
  generate_reports : pyobj -> pyobj -> pyobj -> pyobj -> Z;
  (** [init_fmriprep_wf(...)]: the exception raised, if any *)
  init_fmriprep_wf : workflow -> option exn;
  (** [Workflow.write_graph] and [Workflow.run]: the exception raised, if any *)
  wf_write_graph : workflow -> option exn;
  wf_run : workflow -> pyobj -> option exn
}.

(** ** Program state and the monad of effects *)

Record state : Type := mkState {
  environ : gmap string string;
  retval : gmap string pyobj;
  trace : list event
}.

Definition M (A : Type) : Type := state -> res A * state.

Definition ret {A} (a : A) : M A := fun s => (Ok a, s).

Definition raise {A} (e : exn) : M A := fun s => (Raise e, s).

Definition bind {A B} (m : M A) (f : A -> M B) : M B :=
  fun s =>
    match m s with
    | (Ok a, s') => f a s'
    | (Raise e, s') => (Raise e, s')
    end.

Notation "x <- m ;; k" := (bind m (fun x => k))
  (at level 100, m at next level, right associativity).
Notation "m ;;; k" := (bind m (fun _ => k))
  (at level 100, right associativity).

(** [try: m except cls as e: h e] *)
Definition try_except {A} (m : M A) (cls : string) (h : exn -> M A) : M A :=
  fun s =>
    match m s with
    | (Ok a, s') => (Ok a, s')
    | (Raise e, s') => if isinstance e cls then h e s' else (Raise e, s')
    end.

Definition when (c : bool) (m : M unit) : M unit := if c then m else ret tt.

Definition emit (ev : event) : M unit :=
  fun s => (Ok tt, mkState (environ s) (retval s) (trace s ++ [ev])).

Definition lift_res {A} (r : res A) : M A := fun s => (r, s).

Definition lift_exn (o : option exn) : M unit :=
  match o with
  | Some e => raise e
  | None => ret tt
  end.

(** The current [os.environ]. *)
Definition os_environ : M (gmap string string) := fun s => (Ok (environ s), s).

(** [os.getenv(k, default)] in the environment [env]. *)
Definition getenv (env : gmap string string) (k dflt : string) : string :=
  default dflt (env !! k).

(** [os.environ[k] = v] *)
Definition setenv (k v : string) : M unit :=
  fun s => (Ok tt, mkState (<[k := v]> (environ s)) (retval s) (trace s)).

(** [retval = mgr.dict()] *)
Definition retval_new : M unit :=
  fun s => (Ok tt, mkState (environ s) ∅ (trace s)).

(** [retval[k] = v] *)
Definition retval_set (k : string) (v : pyobj) : M unit :=
  fun s => (Ok tt, mkState (environ s) (<[k := v]> (retval s)) (trace s)).

(** [retval[k]], a [KeyError] when the key is missing *)
Definition retval_get (k : string) : M pyobj :=
  fun s =>
    match retval s !! k with
    | Some v => (Ok v, s)
    | None => (Raise (KeyError k), s)
    end.

(** [sys.exit(code)] *)
Definition sys_exit {A} (code : Z) : M A := raise (SystemExit code).

(** [Process(target=...)], [p.start()], [p.join()]: the target runs in a
    child process.  An exception it raises ends the child and is not seen
    by the parent; what the child wrote through the manager dictionary and
    what it did to the outside world remain, its environment does not. *)
Definition Process (target : M unit) : M unit :=
  fun s =>
    let s1 := mkState (environ s) (retval s) (trace s ++ [EvProcessStart]) in
    let s2 := snd (target s1) in
    (Ok tt, mkState (environ s) (retval s2) (trace s2 ++ [EvProcessJoin])).

(** ** Messages *)

Definition dq : string := String (ascii_of_nat 34) EmptyString.
Definition nl : string := String (ascii_of_nat 10) EmptyString.
Definition tab : string := String (ascii_of_nat 9) EmptyString.

Definition aroma_msg (template : string) (output_space : list string) : string :=
  "ERROR: --use-aroma requires functional images to be resampled to MNI152NLin2009cAsym." +:+ nl +:+
  tab +:+ "--template must be set to " +:+ dq +:+ "MNI152NLin2009cAsym" +:+ dq +:+
  " (was: " +:+ dq +:+ template +:+ dq +:+ ")" +:+ nl +:+
  tab +:+ "--output-space list must include " +:+ dq +:+ "template" +:+ dq +:+
  " (was: " +:+ dq +:+ str_join " " output_space +:+ dq +:+ ")".

Definition syn_msg : string :=
  "SyN SDC correction requires T1 to MNI registration, but " +:+ dq +:+ "template" +:+ dq +:+
  " is not specified in " +:+ dq +:+ "--output-space" +:+ dq +:+ " arguments".

Definition license_msg : string :=
  "ERROR: a valid license file is required for FreeSurfer to run. " +:+
  "FMRIPREP looked for an existing license file at several paths, in this " +:+
  "order: 1) command line argument ``--fs-license-file``; 2) ``$FS_LICENSE`` " +:+
  "environment variable; and 3) the ``$FREESURFER_HOME/license.txt`` path. " +:+
  "Get it (for free) by registering at https://" +:+
  "surfer.nmr.mgh.harvard.edu/registration.html".

Definition omp_warning : string :=
  "Per-process threads (--omp-nthreads=%d) exceed total threads (--nthreads/--n_cpus=%d)".

Definition INIT_MSG : string :=
  "Running fMRIPREP version {version}: * BIDS dataset path: {bids_dir}. " +:+
  "* Participant list: {subject_list}. * Run identifier: {uuid}.".

Definition not_clean : string := "Workflow did not execute cleanly".

(** ** The thread planner (build_workflow, lines 332-334 and 354-356) *)

(** [nthreads = opts.nthreads; if nthreads < 1: nthreads = cpu_count()] *)
Definition plan_nthreads (T C : Z) : Z := if T <? 1 then C else T.

(** [omp_nthreads = opts.omp_nthreads;
     if omp_nthreads == 0:
         omp_nthreads = min(nthreads - 1 if nthreads > 1 else cpu_count(), 8)] *)
Definition plan_omp_nthreads (O nthreads C : Z) : Z :=
  if O =? 0 then Z.min (if 1 <? nthreads then nthreads - 1 else C) 8 else O.

(** The plugin settings computed from the knobs (lines 336-346). *)
Definition computed_plugin_settings (nthreads mem_mb : Z) : pyobj :=
  let plugin_settings :=
    mkdict [("plugin", PStr "MultiProc");
            ("plugin_args", mkdict [("n_procs", PInt nthreads);
                                    ("raise_insufficient", PBool false);
                                    ("maxtasksperchild", PInt 1)])] in
  if mem_mb =? 0 then plugin_settings
  else
    match plugin_settings with
    | PDict d => PDict (alter (setitem "memory_gb" (PFloat (Qmake mem_mb 1024))) "plugin_args" d)
    | _ => plugin_settings
    end.

(** The nipype configuration of lines 374-390. *)
Definition nipype_config (log_dir : string) (o : opts.t) : pyobj :=
  mkdict [("logging", mkdict [("log_directory", PStr log_dir);
                              ("log_to_file", PBool true)]);
          ("execution", mkdict [("crashdump_dir", PStr log_dir);
                                ("crashfile_format", PStr "txt");
                                ("get_linked_libs", PBool false);
                                ("stop_on_first_crash",
                                 PBool (opts.stop_on_first_crash o ||
                                        bool_decide (opts.work_dir o = None)))]);
          ("monitoring", mkdict [("enabled", PBool (opts.resource_monitor o));
                                 ("sample_frequency", PStr "0.5");
                                 ("summary_append", PBool true)])].

(** The license file looked for (main, lines 217-219):
    [default_license = op.join(os.getenv('FREESURFER_HOME', ''), 'license.txt')],
    [license_file = opts.fs_license_file or os.getenv('FS_LICENSE', default_license)]. *)
Definition license_file (o : opts.t) (env : gmap string string) : string :=
  let default_license := join (getenv env "FREESURFER_HOME" "") ["license.txt"] in
  or_default (opts.fs_license_file o) (getenv env "FS_LICENSE" default_license).

(** The keyword arguments of the call of [init_fmriprep_wf] at lines
    419-448, from the options and the local variables of [build_workflow]. *)
Definition init_kwargs (o : opts.t) (subject_list : list string) (run_uuid : string)
    (omp_nthreads : Z) (work_dir output_dir bids_dir : string) : workflow :=
  {| wf_subject_list := subject_list;
     wf_task_id := opts.task_id o;
     wf_run_uuid := run_uuid;
     wf_ignore := opts.ignore o;
     wf_debug := opts.debug o;
     wf_low_mem := opts.low_mem o;
     wf_anat_only := opts.anat_only o;
     wf_longitudinal := opts.longitudinal o;
     wf_t2s_coreg := opts.t2s_coreg o;
     wf_omp_nthreads := omp_nthreads;
     wf_skull_strip_template := opts.skull_strip_template o;
     wf_work_dir := work_dir;
     wf_output_dir := output_dir;
     wf_bids_dir := bids_dir;
     wf_freesurfer := opts.run_reconall o;
     wf_output_spaces := opts.output_space o;
     wf_template := opts.template o;
     wf_medial_surface_nan := opts.medial_surface_nan o;
     wf_output_grid_ref := opts.output_grid_reference o;
     wf_hires := opts.hires o;
     wf_use_bbr := opts.use_bbr o;
     wf_bold2t1w_dof := opts.bold2t1w_dof o;
     wf_fmap_bspline := opts.fmap_bspline o;
     wf_fmap_demean := opts.fmap_no_demean o;
     wf_use_syn := opts.use_syn_sdc o;
     wf_force_syn := opts.force_syn o;
     wf_use_aroma := opts.use_aroma o;
     wf_ignore_aroma_err := opts.ignore_aroma_denoising_errors o |}.

Section Program.
Context (W : World).

(** [os.makedirs(path, exist_ok=True)] *)
Definition os_makedirs (path : string) : M unit :=
  emit (EvMakedirs path) ;;; lift_exn (makedirs W path).

(** A call of [generate_reports]. *)
Definition call_generate_reports (subject_list output_dir work_dir run_uuid : pyobj) : M Z :=
  emit (EvGenerateReports subject_list output_dir work_dir run_uuid) ;;;
  ret (generate_reports W subject_list output_dir work_dir run_uuid).

(** A call of [init_fmriprep_wf]. *)
Definition call_init_fmriprep_wf (w : workflow) : M pyobj :=
  emit (EvInitWf w) ;;; lift_exn (init_fmriprep_wf W w) ;;; ret (PWorkflow w).

(** [build_workflow(opts, retval)], lines 279-450. *)
Definition build_workflow (o : opts.t) : M unit :=
  (* 308-314 *)
  when (opts.use_aroma o &&
        (negb (String.eqb (opts.template o) "MNI152NLin2009cAsym") ||
         negb (str_in "template" (opts.output_space o))))
    (raise (RuntimeError (aroma_msg (opts.template o) (opts.output_space o)))) ;;;
  (* 316-321 *)
  when (negb (str_in "template" (opts.output_space o)) &&
        (opts.use_syn_sdc o || opts.force_syn o))
    (when (opts.force_syn o) (raise (RuntimeError syn_msg)) ;;;
     emit (EvLog 30 syn_msg [])) ;;;
  (* 324 *)
  let run_uuid := strftime_now W +:+ "_" +:+ uuid4 W in
  (* 327-329 *)
  let bids_dir := abspath W (opts.bids_dir o) in
  subject_list <- lift_res (collect_participants W bids_dir (opts.participant_label o)) ;;
  (* 332-346 *)
  let nthreads := plan_nthreads (opts.nthreads o) (cpu_count W) in
  let plugin_settings := computed_plugin_settings nthreads (opts.mem_mb o) in
  (* 349-352 *)
  plugin_settings <-
    match opts.use_plugin o with
    | Some path => lift_res (loadyml W path)
    | None => ret plugin_settings
    end ;;
  (* 354-361 *)
  let omp_nthreads := plan_omp_nthreads (opts.omp_nthreads o) nthreads (cpu_count W) in
  when ((1 <? nthreads) && (nthreads <? omp_nthreads))
    (emit (EvLog 30 omp_warning [PInt omp_nthreads; PInt nthreads])) ;;;
  (* 364-371 *)
  let output_dir := abspath W (opts.output_dir o) in
  let log_dir := join output_dir ["fmriprep"; "logs"] in
  let work_dir := abspath W (or_default (opts.work_dir o) "work") in
  os_makedirs output_dir ;;;
  os_makedirs log_dir ;;;
  os_makedirs work_dir ;;;
  (* 374-393 *)
  emit (EvUpdateConfig (nipype_config log_dir o)) ;;;
  when (opts.resource_monitor o) (emit EvEnableResourceMonitor) ;;;
  (* 395-401 *)
  retval_set "return_code" (PInt 0) ;;;
  retval_set "plugin_settings" plugin_settings ;;;
  retval_set "output_dir" (PStr output_dir) ;;;
  retval_set "work_dir" (PStr work_dir) ;;;
  retval_set "subject_list" (PStrList subject_list) ;;;
  retval_set "run_uuid" (PStr run_uuid) ;;;
  retval_set "workflow" PNone ;;;
  if opts.reports_only o then
    (* 404-409 *)
    emit (EvLog 25 "Running --reports-only on participants %s"
                [PStr (str_join ", " subject_list)]) ;;;
    let run_uuid := default run_uuid (opts.run_uuid o) in
    rc <- call_generate_reports (PStrList subject_list) (PStr output_dir)
                                (PStr work_dir) (PStr run_uuid) ;;
    retval_set "return_code" (PInt rc)
  else
    (* 412-450 *)
    emit (EvLog 25 INIT_MSG [PStr (version W); PStr bids_dir;
                             PStrList subject_list; PStr run_uuid]) ;;;
    wf <- call_init_fmriprep_wf
            (init_kwargs o subject_list run_uuid omp_nthreads work_dir output_dir bids_dir) ;;
    retval_set "workflow" wf ;;;
    retval_set "return_code" (PInt 0).

(** main, lines 211-236: start method, license check, log levels. *)
Definition main_launch (o : opts.t) : M unit :=
  emit (EvSetStartMethod "forkserver") ;;;
  (* 217-228 *)
  env <- os_environ ;;
  let license_file := license_file o env in
  when (negb (path_exists W license_file)) (raise (RuntimeError license_msg)) ;;;
  setenv "FS_LICENSE" license_file ;;;
  (* 231-236 *)
  let log_level := Z.max (25 - 5 * opts.verbose_count o) 10 in
  emit (EvSetLevel "cli" log_level) ;;;
  emit (EvSetLevel "workflow" log_level) ;;;
  emit (EvSetLevel "interface" log_level) ;;;
  emit (EvSetLevel "utils" log_level).

(** main, lines 241-245: the build worker. *)
Definition main_build (o : opts.t) : M unit :=
  retval_new ;;;
  Process (build_workflow o).

(** [fmriprep_wf.write_graph(...)] on whatever [retval['workflow']] held. *)
Definition call_write_graph (fmriprep_wf : pyobj) : M unit :=
  match fmriprep_wf with
  | PWorkflow w => emit (EvWriteGraph w) ;;; lift_exn (wf_write_graph W w)
  | _ => raise (AttributeError "write_graph")
  end.

(** [fmriprep_wf.run] called with the plugin settings as keyword
    arguments, which must be a mapping. *)
Definition call_run (fmriprep_wf plugin_settings : pyobj) : M unit :=
  match fmriprep_wf with
  | PWorkflow w =>
      match plugin_settings with
      | PDict _ => emit (EvRun w plugin_settings) ;;; lift_exn (wf_run W w plugin_settings)
      | _ => raise (TypeError "argument after ** must be a mapping")
      end
  | _ => raise (AttributeError "run")
  end.

(** [retcode > 0] *)
Definition gt0 (retcode : pyobj) : M bool :=
  match retcode with
  | PInt z => ret (0 <? z)
  | PBool b => ret b
  | PFloat q => ret (if Qlt_le_dec 0 q then true else false)
  | _ => raise (TypeError "'>' not supported")
  end.

(** main, lines 255-276: the exit on a missing graph, the graph
    rendering, the reports-only exit, execution and reporting, on the
    values read from the result dictionary.  [errno] is 0 on entry
    (line 238). *)
Definition main_finish (o : opts.t)
    (fmriprep_wf plugin_settings output_dir work_dir subject_list run_uuid retcode : pyobj)
    : M unit :=
  (* 255-256 *)
  when (is_None fmriprep_wf) (sys_exit 1) ;;;
  (* 258-259 *)
  when (opts.write_graph o) (call_write_graph fmriprep_wf) ;;;
  (* 261-262 *)
  when (opts.reports_only o)
    (b <- gt0 retcode ;; sys_exit (if b then 1 else 0)) ;;;
  (* 265-272 *)
  emit EvGcCollect ;;;
  errno <- try_except (call_run fmriprep_wf plugin_settings ;;; ret 0) "RuntimeError"
             (fun e => if contains not_clean (exn_str e) then ret 1 else raise e) ;;
  (* 275-276 *)
  n <- call_generate_reports subject_list output_dir work_dir run_uuid ;;
  let errno := errno + n in
  sys_exit (if 0 <? errno then 1 else 0).

(** main, lines 247-276: reading the result of the worker, then the
    rest of the run. *)
Definition main_supervise (o : opts.t) : M unit :=
  fmriprep_wf <- retval_get "workflow" ;;
  plugin_settings <- retval_get "plugin_settings" ;;
  output_dir <- retval_get "output_dir" ;;
  work_dir <- retval_get "work_dir" ;;
  subject_list <- retval_get "subject_list" ;;
  run_uuid <- retval_get "run_uuid" ;;
  retcode <- retval_get "return_code" ;;
  main_finish o fmriprep_wf plugin_settings output_dir work_dir subject_list run_uuid retcode.

(** [main()], lines 206-276. *)
Definition main (o : opts.t) : M unit :=
  main_launch o ;;; main_build o ;;; main_supervise o.
End Program.

(** The state a process starts in: its environment, nothing else yet. *)
Definition initial (env : gmap string string) : state := mkState env ∅ [].

(** ** A concrete invocation and a concrete world

    [fmriprep /data /out participant] with every option at the default of
    the parser, on a four-core host with a license under
    [$FREESURFER_HOME], a dataset of two participants, and collaborators
    that all succeed. *)
Module Sample.
Definition defaults : opts.t :=
  {| opts.bids_dir := "/data";
     opts.output_dir := "/out";
     opts.participant_label := None;
     opts.task_id := None;
     opts.debug := false;
     opts.nthreads := 0;
     opts.omp_nthreads := 0;
     opts.mem_mb := 0;
     opts.low_mem := false;
     opts.use_plugin := None;
     opts.anat_only := false;
     opts.ignore_aroma_denoising_errors := false;
     opts.verbose_count := 0;
     opts.ignore := [];
     opts.longitudinal := false;
     opts.t2s_coreg := false;
     opts.bold2t1w_dof := 9;
     opts.output_space := ["template"; "fsaverage5"];
     opts.use_bbr := None;
     opts.template := "MNI152NLin2009cAsym";
     opts.output_grid_reference := None;
     opts.medial_surface_nan := false;
     opts.use_aroma := false;
     opts.skull_strip_template := "OASIS";
     opts.fmap_bspline := false;
     opts.fmap_no_demean := true;
     opts.use_syn_sdc := false;
     opts.force_syn := false;
     opts.run_reconall := true;
     opts.hires := true;
     opts.fs_license_file := None;
     opts.work_dir := None;
     opts.resource_monitor := false;
     opts.reports_only := false;
     opts.run_uuid := None;
     opts.write_graph := false;
     opts.stop_on_first_crash := false |}.

(** The current directory is [/home/user]. *)
Definition abspath_home (p : string) : string :=
  if startswith "/" p then p else join "/home/user" [p].

Definition world : World :=
  {| path_exists := fun p => String.eqb p "/opt/freesurfer/license.txt";
     abspath := abspath_home;
     cpu_count := 4;
     strftime_now := "20180101-120000";
     uuid4 := "0f0e0d0c-0b0a-4908-8706-050403020100";
     version := "1.0.8";
     collect_participants := fun _ _ => Ok ["01"; "02"];
     loadyml := fun _ => Ok (mkdict [("plugin", PStr "Linear")]);
     makedirs := fun _ => None;
     generate_reports := fun _ _ _ _ => 0;
     init_fmriprep_wf := fun _ => None;
     wf_write_graph := fun _ => None;
     wf_run := fun _ _ => None |}.

Definition env : gmap string string := {[ "FREESURFER_HOME" := "/opt/freesurfer" ]}.

(** The same world with an engine whose [run] raises [e], a report
    generator that counts [n] failing participants and a graph rendering
    that raises [g]. *)
Definition world_with (e g : option exn) (n : Z) : World :=
  {| path_exists := path_exists world;
     abspath := abspath world;
     cpu_count := cpu_count world;
     strftime_now := strftime_now world;
     uuid4 := uuid4 world;
     version := version world;
     collect_participants := collect_participants world;
     loadyml := loadyml world;
     makedirs := makedirs world;
     generate_reports := fun _ _ _ _ => n;
     init_fmriprep_wf := init_fmriprep_wf world;
     wf_write_graph := fun _ => g;
     wf_run := fun _ _ => e |}.

(** The engine reports nodes that crashed; two participants have
    failing reports. *)
Definition unclean : World :=
  world_with (Some (RuntimeError "Workflow did not execute cleanly. Check log for details"))
             None 2.

(** The same message from an exception that is no RuntimeError. *)
Definition unclean_other_class : World :=
  world_with (Some (Exc ["ValueError"; "Exception"] "Workflow did not execute cleanly"))
             None 2.

(** Graphviz is not installed. *)
Definition no_dot : World :=
  world_with None (Some (Exc ["OSError"; "Exception"] "Cannot draw directed graph")) 0.

(** The state in which [main] reads the result of the worker. *)
Definition after_build (W : World) (o : opts.t) : state :=
  snd ((main_launch W o ;;; main_build W o) (initial env)).

(** [--fs-license-file /missing/license.txt] with a valid [$FS_LICENSE]. *)
Definition stale_license : opts.t :=
  opts.with_fs_license_file (Some "/missing/license.txt") defaults.

Definition env_license : gmap string string :=
  {[ "FS_LICENSE" := "/opt/freesurfer/license.txt" ]}.

(** [--reports-only --run-uuid 20171231-235959_prior] *)
Definition rerun_reports : opts.t :=
  opts.with_run_uuid (Some "20171231-235959_prior") (opts.with_reports_only true defaults).

(** [--use-aroma --output-space T1w] *)
Definition aroma_without_template : opts.t :=
  opts.with_use_aroma true (opts.with_output_space ["T1w"] defaults).

(** [--write-graph] *)
Definition with_graph : opts.t := opts.with_write_graph true defaults.

(** [--use-plugin /etc/plugin.yml], alone and with [--omp-nthreads 2]. *)
Definition plugin : opts.t := opts.with_use_plugin (Some "/etc/plugin.yml") defaults.
Definition plugin_omp : opts.t := opts.with_omp_nthreads 2 plugin.

(** [-w /scratch] *)
Definition scratch : opts.t := opts.with_work_dir (Some "/scratch") defaults.

(** [--omp-nthreads -1] *)
Definition negative_omp : opts.t := opts.with_omp_nthreads (-1) defaults.
End Sample.

(** ** Names for the quantities of the properties *)

(** The directories of lines 364-366. *)
Definition output_dir_of (W : World) (o : opts.t) : string := abspath W (opts.output_dir o).

Definition log_dir_of (W : World) (o : opts.t) : string :=
  join (output_dir_of W o) ["fmriprep"; "logs"].

Definition work_dir_of (W : World) (o : opts.t) : string :=
  abspath W (or_default (opts.work_dir o) "work").

(** The run identifier of line 324. *)
Definition fresh_run_uuid (W : World) : string := strftime_now W +:+ "_" +:+ uuid4 W.

(** The thread counts the worker settles on. *)
Definition total_threads (W : World) (o : opts.t) : Z :=
  plan_nthreads (opts.nthreads o) (cpu_count W).

Definition per_task_threads (W : World) (o : opts.t) : Z :=
  plan_omp_nthreads (opts.omp_nthreads o) (total_threads W o) (cpu_count W).

(** The graph the worker asks for, for a participant list. *)
Definition kwargs_of (W : World) (o : opts.t) (subject_list : list string) : workflow :=
  init_kwargs o subject_list (fresh_run_uuid W) (per_task_threads W o)
              (work_dir_of W o) (output_dir_of W o) (abspath W (opts.bids_dir o)).

(** Where the plugin settings come from (lines 336-352): the document
    named by [--use-plugin] when there is one, else the computed plan. *)
Definition plugin_settings_of (W : World) (o : opts.t) (ps : pyobj) : Prop :=
  match opts.use_plugin o with
  | Some path => loadyml W path = Ok ps
  | None => ps = computed_plugin_settings (total_threads W o) (opts.mem_mb o)
  end.

(** The seven entries of the result dictionary. *)
Record result (s : state) (workflow plugin_settings output_dir work_dir
                           subject_list run_uuid return_code : pyobj) : Prop := {
  result_workflow : retval s !! "workflow" = Some workflow;
  result_plugin_settings : retval s !! "plugin_settings" = Some plugin_settings;
  result_output_dir : retval s !! "output_dir" = Some output_dir;
  result_work_dir : retval s !! "work_dir" = Some work_dir;
  result_subject_list : retval s !! "subject_list" = Some subject_list;
  result_run_uuid : retval s !! "run_uuid" = Some run_uuid;
  result_return_code : retval s !! "return_code" = Some return_code
}.

(** What [--reports-only] has the worker return as status. *)
Definition reports_status (W : World) (o : opts.t) (subject_list : list string) : Z :=
  generate_reports W (PStrList subject_list) (PStr (output_dir_of W o))
    (PStr (work_dir_of W o)) (PStr (default (fresh_run_uuid W) (opts.run_uuid o))).

(** The AROMA check of lines 308-309. *)
Definition aroma_violation (o : opts.t) : bool :=
  opts.use_aroma o &&
  (negb (String.eqb (opts.template o) "MNI152NLin2009cAsym") ||
   negb (str_in "template" (opts.output_space o))).

(** The forced-SyN check of lines 316-320. *)
Definition syn_violation (o : opts.t) : bool :=
  negb (str_in "template" (opts.output_space o)) &&
  (opts.use_syn_sdc o || opts.force_syn o) && opts.force_syn o.

(** The graph handle stored under ['workflow'], if there is one. *)
Definition built_workflow (s : state) : option workflow :=
  match retval s !! "workflow" with
  | Some (PWorkflow w) => Some w
  | _ => None
  end.

(** [plugin_settings['plugin_args']['n_procs']] in the result dictionary. *)
Definition n_procs (s : state) : option pyobj :=
  retval s !! "plugin_settings" ≫= fun ps =>
  getitem ps "plugin_args" ≫= fun args => getitem args "n_procs".

(** Kinds of events. *)
Definition is_makedirs (ev : event) : bool :=
  match ev with EvMakedirs _ => true | _ => false end.

Definition is_init_wf (ev : event) : bool :=
  match ev with EvInitWf _ => true | _ => false end.

Definition is_run (ev : event) : bool :=
  match ev with EvRun _ _ => true | _ => false end.

Definition is_generate_reports (ev : event) : bool :=
  match ev with EvGenerateReports _ _ _ _ => true | _ => false end.

Definition is_update_config (ev : event) : bool :=
  match ev with EvUpdateConfig _ => true | _ => false end.

(** [execution.stop_on_first_crash] in a nipype configuration. *)
Definition stop_policy (cfg : pyobj) : option pyobj :=
  getitem cfg "execution" ≫= fun e => getitem e "stop_on_first_crash".

(** ** The planner and the license resolver as the specification words them *)

(** [total = T if T >= 1 else C] *)
Definition spec_total (T C : Z) : Z := if 1 <=? T then T else C.

(** [per_task = O if O >= 1 else min((total - 1) if total > 1 else C, 8)] *)
Definition spec_per_task (T O C : Z) : Z :=
  if 1 <=? O then O
  else Z.min (if 1 <? spec_total T C then spec_total T C - 1 else C) 8.

(** The three candidates in order of precedence: the explicit argument,
    [$FS_LICENSE], [$FREESURFER_HOME/license.txt]. *)
Definition license_candidates (o : opts.t) (env : gmap string string) : list string :=
  option_list (opts.fs_license_file o) ++
  option_list (env !! "FS_LICENSE") ++
  [join (getenv env "FREESURFER_HOME" "") ["license.txt"]].

(** First candidate that is non-empty and names an existing file. *)
Definition spec_resolve_license (W : World) (o : opts.t) (env : gmap string string)
    : option string :=
  List.find (fun p => negb (String.eqb p "") && path_exists W p) (license_candidates o env).

(** ** Failures of the worker as the specification words them *)

(** A failure captured in the result: the worker returns, the graph handle
    is absent and the status is not zero. *)
Definition failure_captured (r : res unit) (s' : state) : Prop :=
  r = Ok tt /\
  retval s' !! "workflow" = Some PNone /\
  exists n, retval s' !! "return_code" = Some (PInt n) /\ n ≠ 0.

(** The steps of the worker that can fail before it writes its result
    (lines 306-371), each with the exception it raises. *)
Inductive early_failure (W : World) (o : opts.t) : exn -> Prop :=
  | aroma_check_fails :
      aroma_violation o = true ->
      early_failure W o (RuntimeError (aroma_msg (opts.template o) (opts.output_space o)))
  | syn_check_fails :
      aroma_violation o = false ->
      syn_violation o = true ->
      early_failure W o (RuntimeError syn_msg)
  | dataset_invalid e :
      aroma_violation o = false ->
      syn_violation o = false ->
      collect_participants W (abspath W (opts.bids_dir o)) (opts.participant_label o)
        = Raise e ->
      early_failure W o e
  | plugin_unreadable sl path e :
      aroma_violation o = false ->
      syn_violation o = false ->
      collect_participants W (abspath W (opts.bids_dir o)) (opts.participant_label o)
        = Ok sl ->
      opts.use_plugin o = Some path ->
      loadyml W path = Raise e ->
      early_failure W o e
  | directory_not_created sl e :
      aroma_violation o = false ->
      syn_violation o = false ->
      collect_participants W (abspath W (opts.bids_dir o)) (opts.participant_label o)
        = Ok sl ->
      (forall path, opts.use_plugin o = Some path -> exists ps, loadyml W path = Ok ps) ->
      (makedirs W (output_dir_of W o) = Some e \/
       makedirs W (output_dir_of W o) = None /\
         makedirs W (log_dir_of W o) = Some e \/
       makedirs W (output_dir_of W o) = None /\
         makedirs W (log_dir_of W o) = None /\
         makedirs W (work_dir_of W o) = Some e) ->
      early_failure W o e.

(** ** The calls a run can make *)

(** The calls [build_workflow] can make to the outside. *)
Inductive build_event (W : World) (o : opts.t) : event -> Prop :=
  | be_log level fmt args : build_event W o (EvLog level fmt args)
  | be_makedirs path : build_event W o (EvMakedirs path)
  | be_update_config : build_event W o (EvUpdateConfig (nipype_config (log_dir_of W o) o))
  | be_resource_monitor : build_event W o EvEnableResourceMonitor
  | be_generate_reports sl :
      opts.reports_only o = true ->
      build_event W o
        (EvGenerateReports (PStrList sl) (PStr (output_dir_of W o)) (PStr (work_dir_of W o))
                           (PStr (default (fresh_run_uuid W) (opts.run_uuid o))))
  | be_init_wf sl :
      opts.reports_only o = false ->
      build_event W o (EvInitWf (kwargs_of W o sl)).

(** The calls [main] can make to the outside, those of its worker
    included. *)
Inductive main_event (W : World) (o : opts.t) : event -> Prop :=
  | me_set_start_method : main_event W o (EvSetStartMethod "forkserver")
  | me_set_level logger level : main_event W o (EvSetLevel logger level)
  | me_process_start : main_event W o EvProcessStart
  | me_process_join : main_event W o EvProcessJoin
  | me_build ev : build_event W o ev -> main_event W o ev
  | me_gc_collect : main_event W o EvGcCollect
  | me_write_graph sl :
      opts.reports_only o = false ->
      opts.write_graph o = true ->
      main_event W o (EvWriteGraph (kwargs_of W o sl))
  | me_run sl ps :
      opts.reports_only o = false ->
      plugin_settings_of W o ps ->
      main_event W o (EvRun (kwargs_of W o sl) ps)
  | me_generate_reports sl :
      opts.reports_only o = false ->
      main_event W o
        (EvGenerateReports (PStrList sl) (PStr (output_dir_of W o)) (PStr (work_dir_of W o))
                           (PStr (fresh_run_uuid W))).

(** An execution failure the supervisor recovers from (lines 268-270). *)
Definition recoverable (e : exn) : bool :=
  isinstance e "RuntimeError" && contains not_clean (exn_str e).

(** ** Recovery and tolerance as the specification words them *)

(** Every execution failure whose message says the graph did not execute
    cleanly is survived: reports are generated and main ends in an exit. *)
Definition unclean_failure_survived (W : World) (o : opts.t) (env : gmap string string)
    : Prop :=
  forall w ps e,
    wf_run W w ps = Some e ->
    contains not_clean (exn_str e) = true ->
    Exists (fun ev => is_generate_reports ev = true) (trace (snd (main W o (initial env)))) /\
    exists c, fst (main W o (initial env)) = Raise (SystemExit c).

(** A failed rendering of the graph does not stop the run: it goes on to
    the reports-only exit or to graph execution. *)
Definition rendering_failure_tolerated (W : World) (o : opts.t) (env : gmap string string)
    : Prop :=
  forall w e,
    wf_write_graph W w = Some e ->
    Exists (fun ev => is_run ev = true) (trace (snd (main W o (initial env)))) \/
    opts.reports_only o = true /\ exists c, fst (main W o (initial env)) = Raise (SystemExit c).

(** Two command lines hand the same graph request and the same plugin
    settings to construction and execution. *)
Definition same_handed_over (W : World) (o1 o2 : opts.t) (env : gmap string string) : Prop :=
  let s1 := snd (build_workflow W o1 (initial env)) in
  let s2 := snd (build_workflow W o2 (initial env)) in
  built_workflow s1 = built_workflow s2 /\
  retval s1 !! "plugin_settings" = retval s2 !! "plugin_settings".

(** ** Weakest preconditions *)

Definition wp {A} (m : M A) (Q : res A -> state -> Prop) (s : state) : Prop :=
  Q (fst (m s)) (snd (m s)).

(** ** The parser (get_parser, lines 33-203) *)

(** The namespace [parse_args] returns when only the three positional
    arguments are given: every option at the default its [add_argument]
    call declares ([store_true] options default to [False], [store_false]
    options to [True], the others to [None] when no default is given). *)
Definition parser_defaults (bids_dir output_dir : string) : opts.t :=
  {| opts.bids_dir := bids_dir;
     opts.output_dir := output_dir;
     opts.participant_label := None;
     opts.task_id := None;
     opts.debug := false;
     opts.nthreads := 0;
     opts.omp_nthreads := 0;
     opts.mem_mb := 0;
     opts.low_mem := false;
     opts.use_plugin := None;
     opts.anat_only := false;
     opts.ignore_aroma_denoising_errors := false;
     opts.verbose_count := 0;
     opts.ignore := [];
     opts.longitudinal := false;
     opts.t2s_coreg := false;
     opts.bold2t1w_dof := 9;
     opts.output_space := ["template"; "fsaverage5"];
     opts.use_bbr := None;
     opts.template := "MNI152NLin2009cAsym";
     opts.output_grid_reference := None;
     opts.medial_surface_nan := false;
     opts.use_aroma := false;
     opts.skull_strip_template := "OASIS";
     opts.fmap_bspline := false;
     opts.fmap_no_demean := true;
     opts.use_syn_sdc := false;
     opts.force_syn := false;
     opts.run_reconall := true;
     opts.hires := true;
     opts.fs_license_file := None;
     opts.work_dir := None;
     opts.resource_monitor := false;
     opts.reports_only := false;
     opts.run_uuid := None;
     opts.write_graph := false;
     opts.stop_on_first_crash := false |}.

(** The [choices] of the parser: the values [parse_args] accepts for
    [--ignore], [--bold2t1w-dof], [--output-space], [--template] and
    [--skull-strip-template]; [-v] is counted, so it is never negative. *)
Definition admissible (o : opts.t) : bool :=
  forallb (fun x => str_in x ["fieldmaps"; "slicetiming"]) (opts.ignore o) &&
  existsb (Z.eqb (opts.bold2t1w_dof o)) [6; 9; 12] &&
  forallb (fun x => str_in x ["T1w"; "template"; "fsnative"; "fsaverage";
                              "fsaverage6"; "fsaverage5"]) (opts.output_space o) &&
  str_in (opts.template o) ["MNI152NLin2009cAsym"] &&
  str_in (opts.skull_strip_template o) ["OASIS"; "NKI"] &&
  (0 <=? opts.verbose_count o).

(** ** The calls of a worker whose steps all succeed *)

(** The advisories of lines 316-321 and 358-361. *)
Definition advisories (W : World) (o : opts.t) : list event :=
  (if negb (str_in "template" (opts.output_space o)) &&
      (opts.use_syn_sdc o || opts.force_syn o)
   then [EvLog 30 syn_msg []] else []) ++
  (if (1 <? total_threads W o) && (total_threads W o <? per_task_threads W o)
   then [EvLog 30 omp_warning [PInt (per_task_threads W o); PInt (total_threads W o)]]
   else []).

(** Lines 363-393: the three directories, then the configuration. *)
Definition setup_events (W : World) (o : opts.t) : list event :=
  [EvMakedirs (output_dir_of W o); EvMakedirs (log_dir_of W o);
   EvMakedirs (work_dir_of W o); EvUpdateConfig (nipype_config (log_dir_of W o) o)] ++
  (if opts.resource_monitor o then [EvEnableResourceMonitor] else []).

(** Lines 403-419: report generation or graph construction. *)
Definition mode_events (W : World) (o : opts.t) (sl : list string) : list event :=
  if opts.reports_only o
  then [EvLog 25 "Running --reports-only on participants %s" [PStr (str_join ", " sl)];
        EvGenerateReports (PStrList sl) (PStr (output_dir_of W o)) (PStr (work_dir_of W o))
                          (PStr (default (fresh_run_uuid W) (opts.run_uuid o)))]
  else [EvLog 25 INIT_MSG [PStr (version W); PStr (abspath W (opts.bids_dir o));
                           PStrList sl; PStr (fresh_run_uuid W)];
        EvInitWf (kwargs_of W o sl)].

(** The collaborators of the worker up to its result succeed. *)
Definition setup_succeeds (W : World) (o : opts.t) (sl : list string) (ps : pyobj) : Prop :=
  collect_participants W (abspath W (opts.bids_dir o)) (opts.participant_label o) = Ok sl /\
  plugin_settings_of W o ps /\
  makedirs W (output_dir_of W o) = None /\
  makedirs W (log_dir_of W o) = None /\
  makedirs W (work_dir_of W o) = None.

(** The calls of [main] before it starts the worker (lines 211-236). *)
Definition launch_events (o : opts.t) : list event :=
  let log_level := Z.max (25 - 5 * opts.verbose_count o) 10 in
  [EvSetStartMethod "forkserver"; EvSetLevel "cli" log_level;
   EvSetLevel "workflow" log_level; EvSetLevel "interface" log_level;
   EvSetLevel "utils" log_level].

(** Neither rendering nor running the graph ends the process by itself. *)
Definition engine_does_not_exit (W : World) : Prop :=
  (forall w c, wf_write_graph W w <> Some (SystemExit c)) /\
  (forall w ps c, wf_run W w ps <> Some (SystemExit c)).

(** Functional updates of further options. *)
Definition set_nthreads v (o : opts.t) : opts.t :=
  opts.mk (opts.bids_dir o) (opts.output_dir o) (opts.participant_label o)
    (opts.task_id o) (opts.debug o) v (opts.omp_nthreads o) (opts.mem_mb o)
    (opts.low_mem o) (opts.use_plugin o) (opts.anat_only o)
    (opts.ignore_aroma_denoising_errors o) (opts.verbose_count o) (opts.ignore o)
    (opts.longitudinal o) (opts.t2s_coreg o) (opts.bold2t1w_dof o) (opts.output_space o)
    (opts.use_bbr o) (opts.template o) (opts.output_grid_reference o)
    (opts.medial_surface_nan o) (opts.use_aroma o) (opts.skull_strip_template o)
    (opts.fmap_bspline o) (opts.fmap_no_demean o) (opts.use_syn_sdc o)
    (opts.force_syn o) (opts.run_reconall o) (opts.hires o) (opts.fs_license_file o)
    (opts.work_dir o) (opts.resource_monitor o) (opts.reports_only o) (opts.run_uuid o)
    (opts.write_graph o) (opts.stop_on_first_crash o).

Definition set_mem_mb v (o : opts.t) : opts.t :=
  opts.mk (opts.bids_dir o) (opts.output_dir o) (opts.participant_label o)
    (opts.task_id o) (opts.debug o) (opts.nthreads o) (opts.omp_nthreads o) v
    (opts.low_mem o) (opts.use_plugin o) (opts.anat_only o)
    (opts.ignore_aroma_denoising_errors o) (opts.verbose_count o) (opts.ignore o)
    (opts.longitudinal o) (opts.t2s_coreg o) (opts.bold2t1w_dof o) (opts.output_space o)
    (opts.use_bbr o) (opts.template o) (opts.output_grid_reference o)
    (opts.medial_surface_nan o) (opts.use_aroma o) (opts.skull_strip_template o)
    (opts.fmap_bspline o) (opts.fmap_no_demean o) (opts.use_syn_sdc o)
    (opts.force_syn o) (opts.run_reconall o) (opts.hires o) (opts.fs_license_file o)
    (opts.work_dir o) (opts.resource_monitor o) (opts.reports_only o) (opts.run_uuid o)
    (opts.write_graph o) (opts.stop_on_first_crash o).

Definition set_verbose_count v (o : opts.t) : opts.t :=
  opts.mk (opts.bids_dir o) (opts.output_dir o) (opts.participant_label o)
    (opts.task_id o) (opts.debug o) (opts.nthreads o) (opts.omp_nthreads o)
    (opts.mem_mb o) (opts.low_mem o) (opts.use_plugin o) (opts.anat_only o)
    (opts.ignore_aroma_denoising_errors o) v (opts.ignore o) (opts.longitudinal o)
    (opts.t2s_coreg o) (opts.bold2t1w_dof o) (opts.output_space o) (opts.use_bbr o)
    (opts.template o) (opts.output_grid_reference o) (opts.medial_surface_nan o)
    (opts.use_aroma o) (opts.skull_strip_template o) (opts.fmap_bspline o)
    (opts.fmap_no_demean o) (opts.use_syn_sdc o) (opts.force_syn o)
    (opts.run_reconall o) (opts.hires o) (opts.fs_license_file o) (opts.work_dir o)
    (opts.resource_monitor o) (opts.reports_only o) (opts.run_uuid o)
    (opts.write_graph o) (opts.stop_on_first_crash o).

Definition set_use_syn_sdc v (o : opts.t) : opts.t :=
  opts.mk (opts.bids_dir o) (opts.output_dir o) (opts.participant_label o)
    (opts.task_id o) (opts.debug o) (opts.nthreads o) (opts.omp_nthreads o)
    (opts.mem_mb o) (opts.low_mem o) (opts.use_plugin o) (opts.anat_only o)
    (opts.ignore_aroma_denoising_errors o) (opts.verbose_count o) (opts.ignore o)
    (opts.longitudinal o) (opts.t2s_coreg o) (opts.bold2t1w_dof o) (opts.output_space o)
    (opts.use_bbr o) (opts.template o) (opts.output_grid_reference o)
    (opts.medial_surface_nan o) (opts.use_aroma o) (opts.skull_strip_template o)
    (opts.fmap_bspline o) (opts.fmap_no_demean o) v (opts.force_syn o)
    (opts.run_reconall o) (opts.hires o) (opts.fs_license_file o) (opts.work_dir o)
    (opts.resource_monitor o) (opts.reports_only o) (opts.run_uuid o)
    (opts.write_graph o) (opts.stop_on_first_crash o).

Definition set_force_syn v (o : opts.t) : opts.t :=
  opts.mk (opts.bids_dir o) (opts.output_dir o) (opts.participant_label o)
    (opts.task_id o) (opts.debug o) (opts.nthreads o) (opts.omp_nthreads o)
    (opts.mem_mb o) (opts.low_mem o) (opts.use_plugin o) (opts.anat_only o)
    (opts.ignore_aroma_denoising_errors o) (opts.verbose_count o) (opts.ignore o)
    (opts.longitudinal o) (opts.t2s_coreg o) (opts.bold2t1w_dof o) (opts.output_space o)
    (opts.use_bbr o) (opts.template o) (opts.output_grid_reference o)
    (opts.medial_surface_nan o) (opts.use_aroma o) (opts.skull_strip_template o)
    (opts.fmap_bspline o) (opts.fmap_no_demean o) (opts.use_syn_sdc o) v
    (opts.run_reconall o) (opts.hires o) (opts.fs_license_file o) (opts.work_dir o)
    (opts.resource_monitor o) (opts.reports_only o) (opts.run_uuid o)
    (opts.write_graph o) (opts.stop_on_first_crash o).

Definition set_resource_monitor v (o : opts.t) : opts.t :=
  opts.mk (opts.bids_dir o) (opts.output_dir o) (opts.participant_label o)
    (opts.task_id o) (opts.debug o) (opts.nthreads o) (opts.omp_nthreads o)
    (opts.mem_mb o) (opts.low_mem o) (opts.use_plugin o) (opts.anat_only o)
    (opts.ignore_aroma_denoising_errors o) (opts.verbose_count o) (opts.ignore o)
    (opts.longitudinal o) (opts.t2s_coreg o) (opts.bold2t1w_dof o) (opts.output_space o)
    (opts.use_bbr o) (opts.template o) (opts.output_grid_reference o)
    (opts.medial_surface_nan o) (opts.use_aroma o) (opts.skull_strip_template o)
    (opts.fmap_bspline o) (opts.fmap_no_demean o) (opts.use_syn_sdc o)
    (opts.force_syn o) (opts.run_reconall o) (opts.hires o) (opts.fs_license_file o)
    (opts.work_dir o) v (opts.reports_only o) (opts.run_uuid o) (opts.write_graph o)
    (opts.stop_on_first_crash o).

(** Further invocations on the sample host. *)
Module Sample2.
(** [--force-syn --output-space T1w] *)
Definition forced_syn : opts.t :=
  set_force_syn true (opts.with_output_space ["T1w"] Sample.defaults).

(** [--use-syn-sdc --output-space T1w --nthreads 2 --omp-nthreads 5 --mem_mb 2048] *)
Definition advised : opts.t :=
  set_use_syn_sdc true
    (opts.with_output_space ["T1w"]
       (set_nthreads 2 (opts.with_omp_nthreads 5 (set_mem_mb 2048 Sample.defaults)))).

(** [-w ""] *)
Definition empty_work_dir : opts.t := opts.with_work_dir (Some "") Sample.defaults.

(** [-vvvv] *)
Definition very_verbose : opts.t := set_verbose_count 4 Sample.defaults.

(** A host on which graph construction fails. *)
Definition no_graph : World :=
  {| path_exists := path_exists Sample.world;
     abspath := abspath Sample.world;
     cpu_count := cpu_count Sample.world;
     strftime_now := strftime_now Sample.world;
     uuid4 := uuid4 Sample.world;
     version := version Sample.world;
     collect_participants := collect_participants Sample.world;
     loadyml := loadyml Sample.world;
     makedirs := makedirs Sample.world;
     generate_reports := generate_reports Sample.world;
     init_fmriprep_wf := fun _ => Some (Exc ["ValueError"; "Exception"] "no T1w images");
     wf_write_graph := wf_write_graph Sample.world;
     wf_run := wf_run Sample.world |}.
End Sample2.

(** ** Rules of the weakest precondition

    One rule per operation of the monad; [wp_prim] applies the rule that
    fits the head of the program and so runs it one step at a time. *)

Section WP.
Context {A B : Type}.
Implicit Types (Q : res A -> state -> Prop) (s : state).

Lemma wp_ret (a : A) Q s : Q (Ok a) s -> wp (ret a) Q s.
Proof. done. Qed.

Lemma wp_raise e Q s : Q (Raise e) s -> wp (raise e) Q s.
Proof. done. Qed.

Lemma wp_sys_exit c Q s : Q (Raise (SystemExit c)) s -> wp (sys_exit c) Q s.
Proof. done. Qed.

Lemma wp_lift_res (r : res A) Q s : Q r s -> wp (lift_res r) Q s.
Proof. done. Qed.

Lemma wp_bind (m : M B) (f : B -> M A) Q s :
  wp m (fun r s' => match r with
                    | Ok b => wp (f b) Q s'
                    | Raise e => Q (Raise e) s'
                    end) s ->
  wp (bind m f) Q s.
Proof. unfold wp, bind. by destruct (m s) as [[b|e] s']. Qed.

Lemma wp_try_except (m : M A) cls h Q s :
  wp m (fun r s' => match r with
                    | Ok a => Q (Ok a) s'
                    | Raise e => if isinstance e cls then wp (h e) Q s' else Q (Raise e) s'
                    end) s ->
  wp (try_except m cls h) Q s.
Proof.
  unfold wp, try_except. destruct (m s) as [[a|e] s']; [done|].
  simpl. by destruct (isinstance e cls).
Qed.

Lemma wp_mono (m : M A) (Q Q' : res A -> state -> Prop) s :
  wp m Q s -> (forall r s', Q r s' -> Q' r s') -> wp m Q' s.
Proof. unfold wp. auto. Qed.

Lemma wp_run_eq (m : M A) Q s : wp m Q s -> Q (fst (m s)) (snd (m s)).
Proof. done. Qed.
End WP.

Section WPprim.
Implicit Types (Q : res unit -> state -> Prop) (s : state).

Lemma wp_emit ev Q s :
  Q (Ok tt) (mkState (environ s) (retval s) (trace s ++ [ev])) -> wp (emit ev) Q s.
Proof. done. Qed.

Lemma wp_when (c : bool) m Q s :
  (if c then wp m Q s else Q (Ok tt) s) -> wp (when c m) Q s.
Proof. by destruct c. Qed.

Lemma wp_lift_exn o Q s :
  match o with Some e => Q (Raise e) s | None => Q (Ok tt) s end -> wp (lift_exn o) Q s.
Proof. by destruct o. Qed.

Lemma wp_setenv k v Q s :
  Q (Ok tt) (mkState (<[k := v]> (environ s)) (retval s) (trace s)) -> wp (setenv k v) Q s.
Proof. done. Qed.

Lemma wp_retval_new Q s :
  Q (Ok tt) (mkState (environ s) ∅ (trace s)) -> wp retval_new Q s.
Proof. done. Qed.

Lemma wp_retval_set k v Q s :
  Q (Ok tt) (mkState (environ s) (<[k := v]> (retval s)) (trace s)) ->
  wp (retval_set k v) Q s.
Proof. done. Qed.

Lemma wp_Process target Q s :
  wp target
     (fun _ s2 => Q (Ok tt) (mkState (environ s) (retval s2) (trace s2 ++ [EvProcessJoin])))
     (mkState (environ s) (retval s) (trace s ++ [EvProcessStart])) ->
  wp (Process target) Q s.
Proof. done. Qed.

Lemma wp_os_environ (Q : res (gmap string string) -> state -> Prop) s :
  Q (Ok (environ s)) s -> wp os_environ Q s.
Proof. done. Qed.

Lemma wp_retval_get k (Q : res pyobj -> state -> Prop) s :
  match retval s !! k with
  | Some v => Q (Ok v) s
  | None => Q (Raise (KeyError k)) s
  end -> wp (retval_get k) Q s.
Proof. unfold wp, retval_get. by destruct (retval s !! k). Qed.
End WPprim.

Ltac wp_simpl := cbn beta iota delta [environ retval trace].

(** One step of symbolic execution. *)
Ltac wp_prim :=
  lazymatch goal with
  | |- wp (bind _ _) _ _ => apply wp_bind
  | |- wp (ret _) _ _ => apply wp_ret
  | |- wp (raise _) _ _ => apply wp_raise
  | |- wp (sys_exit _) _ _ => apply wp_sys_exit
  | |- wp (lift_res _) _ _ => apply wp_lift_res
  | |- wp (lift_exn _) _ _ => apply wp_lift_exn
  | |- wp (emit _) _ _ => apply wp_emit
  | |- wp (when _ _) _ _ => apply wp_when
  | |- wp (setenv _ _) _ _ => apply wp_setenv
  | |- wp os_environ _ _ => apply wp_os_environ
  | |- wp retval_new _ _ => apply wp_retval_new
  | |- wp (retval_set _ _) _ _ => apply wp_retval_set
  | |- wp (retval_get _) _ _ => apply wp_retval_get
  | |- wp (Process _) _ _ => apply wp_Process
  | |- wp (try_except _ _ _) _ _ => apply wp_try_except
  | |- wp (os_makedirs _ _) _ _ => unfold os_makedirs
  | |- wp (call_generate_reports _ _ _ _ _) _ _ => unfold call_generate_reports
  | |- wp (call_init_fmriprep_wf _ _) _ _ => unfold call_init_fmriprep_wf
  end; wp_simpl.

Ltac wp_run := repeat wp_prim.

(** Lookup of a literal key in a chain of updates with literal keys. *)
Ltac map_lookup :=
  repeat (rewrite lookup_insert_ne; [|discriminate]);
  first [ apply lookup_insert_eq | apply lookup_empty | eassumption ].

(** Membership of a call in a trace built by appending calls. *)
Ltac in_trace :=
  cbn [trace];
  repeat (apply elem_of_app;
          first [ right; apply list_elem_of_singleton; reflexivity | left ]).

(** Symbolic execution that also splits on every test it meets. *)
Ltac wp_all := repeat (first [ wp_prim | case_match ]).

(** From and to equations on runs. *)
Lemma wp_eq {A} (m : M A) (Q : res A -> state -> Prop) s r s' :
  m s = (r, s') -> Q r s' -> wp m Q s.
Proof. unfold wp. intros Heq. by rewrite Heq. Qed.

Lemma wp_pair {A} (m : M A) s r0 s0 :
  wp m (fun r s' => r = r0 /\ s' = s0) s -> m s = (r0, s0).
Proof. unfold wp. destruct (m s) as [r s']. simpl. by intros [-> ->]. Qed.

(** ** Strings *)

Lemma str_in_spec x l : str_in x l = true <-> x ∈ l.
Proof.
  unfold str_in. rewrite existsb_exists. split.
  - intros (y & Hy & Heq). apply String.eqb_eq in Heq as ->. by apply list_elem_of_In.
  - intros Hx. exists x. split; [by apply list_elem_of_In | apply String.eqb_refl].
Qed.

Lemma str_in_false x l : str_in x l = false <-> x ∉ l.
Proof. rewrite <- str_in_spec. by destruct (str_in x l). Qed.

(** ** Deciding properties of traces *)

Lemma Exists_existsb (f : event -> bool) l :
  Exists (fun ev => f ev = true) l <-> existsb f l = true.
Proof.
  induction l as [|x l IH]; simpl.
  - rewrite Exists_nil. split; [done | discriminate].
  - by rewrite Exists_cons, IH, orb_true_iff.
Qed.

Lemma Forall_neither (f g : event -> bool) l :
  forallb (fun ev => negb (f ev) && negb (g ev)) l = true ->
  Forall (fun ev => f ev = false /\ g ev = false) l.
Proof.
  induction l as [|x l IH]; simpl; [constructor|].
  intros [Hx Hl]%andb_true_iff. constructor; [|by apply IH].
  apply andb_true_iff in Hx as [Hf Hg]. by rewrite negb_true_iff in Hf, Hg.
Qed.

Lemma some_update_config l :
  existsb is_update_config l = true -> exists cfg, EvUpdateConfig cfg ∈ l.
Proof.
  induction l as [|x l IH]; simpl; [discriminate|].
  intros [Hx | Hl]%orb_true_iff.
  - destruct x; try discriminate. eexists. apply list_elem_of_here.
  - destruct (IH Hl) as [cfg Hcfg]. exists cfg. by apply list_elem_of_further.
Qed.

(** ** The AROMA check *)

Lemma aroma_violation_true o :
  opts.use_aroma o = true ->
  opts.template o ≠ "MNI152NLin2009cAsym" \/ "template" ∉ opts.output_space o ->
  aroma_violation o = true.
Proof.
  intros Ha Hv. unfold aroma_violation. rewrite Ha. simpl.
  apply orb_true_iff. destruct Hv as [Ht | Hs].
  - left. apply negb_true_iff. by apply String.eqb_neq.
  - right. apply negb_true_iff. by apply str_in_false.
Qed.

Lemma build_workflow_aroma W o s :
  aroma_violation o = true ->
  build_workflow W o s =
    (Raise (RuntimeError (aroma_msg (opts.template o) (opts.output_space o))), s).
Proof.
  intros Hv. apply wp_pair. unfold build_workflow, aroma_violation in *.
  wp_prim. wp_prim. rewrite Hv. wp_run. by destruct s.
Qed.

(** When the worker raises at once, [main] ends with status 1 after the
    license step or after its first read of the empty result. *)
Lemma main_after_failed_build W o env e :
  (forall s, build_workflow W o s = (Raise e, s)) ->
  wp (main W o)
     (fun r s' => exit_status r = 1 /\ Forall (fun ev => is_makedirs ev = false) (trace s') /\
                  Forall (fun ev => is_run ev = false) (trace s') /\
                  Forall (fun ev => is_generate_reports ev = false) (trace s'))
     (initial env).
Proof.
  intros Hb. unfold main, main_launch, main_build, main_supervise, initial.
  wp_run. case_match; wp_run.
  - repeat split; repeat constructor.
  - eapply wp_eq; [apply Hb|]. wp_simpl. wp_run. rewrite lookup_empty.
    repeat split; repeat constructor.
Qed.

(** C6: when AROMA denoising is requested and the template is not
    MNI152NLin2009cAsym or the output spaces do not include the template
    space, the build fails with a RuntimeError as its very first step: the
    worker leaves the state as it found it, so no output, log or working
    directory has been created, and the whole run asks for no directory and
    exits with a nonzero status. *)
Theorem aroma_check_precedes_directories W o s env :
  opts.use_aroma o = true ->
  opts.template o ≠ "MNI152NLin2009cAsym" \/ "template" ∉ opts.output_space o ->
  build_workflow W o s =
    (Raise (RuntimeError (aroma_msg (opts.template o) (opts.output_space o))), s) /\
  Forall (fun ev => is_makedirs ev = false) (trace (snd (main W o (initial env)))) /\
  exit_status (fst (main W o (initial env))) = 1.
Proof.
  intros Ha Hv. pose proof (aroma_violation_true o Ha Hv) as Hviol.
  split; [by apply build_workflow_aroma|].
  pose proof (main_after_failed_build W o env _
                (fun s => build_workflow_aroma W o s Hviol)) as Hm.
  apply wp_run_eq in Hm. tauto.
Qed.

Lemma aroma_check_precedes_directories_witness :
  build_workflow Sample.world Sample.aroma_without_template (initial Sample.env) =
    (Raise (RuntimeError (aroma_msg "MNI152NLin2009cAsym" ["T1w"])), initial Sample.env) /\
  Forall (fun ev => is_makedirs ev = false)
         (trace (snd (main Sample.world Sample.aroma_without_template
                           (initial Sample.env)))) /\
  exit_status (fst (main Sample.world Sample.aroma_without_template
                         (initial Sample.env))) = 1.
Proof.
  apply (aroma_check_precedes_directories Sample.world Sample.aroma_without_template
           (initial Sample.env) Sample.env).
  - reflexivity.
  - right. apply str_in_false. reflexivity.
Defined.

(** ** What the worker leaves in the result dictionary *)

(** The outcome of the worker on every path: when it returns, the seven
    entries of the result, with the graph handle absent in reports-only
    mode; when it raises, either nothing was written or graph construction
    failed after the result was written with no graph handle and status 0. *)
Lemma build_workflow_result W o s :
  wp (build_workflow W o)
     (fun r s' =>
        environ s' = environ s /\
        match r with
        | Ok _ =>
            exists sl ps,
              collect_participants W (abspath W (opts.bids_dir o))
                                   (opts.participant_label o) = Ok sl /\
              plugin_settings_of W o ps /\
              EvUpdateConfig (nipype_config (log_dir_of W o) o) ∈ trace s' /\
              if opts.reports_only o
              then EvGenerateReports
                     (PStrList sl) (PStr (output_dir_of W o)) (PStr (work_dir_of W o))
                     (PStr (default (fresh_run_uuid W) (opts.run_uuid o))) ∈ trace s' /\
                   result s' PNone ps (PStr (output_dir_of W o)) (PStr (work_dir_of W o))
                          (PStrList sl) (PStr (fresh_run_uuid W))
                          (PInt (reports_status W o sl))
              else init_fmriprep_wf W (kwargs_of W o sl) = None /\
                   result s' (PWorkflow (kwargs_of W o sl)) ps (PStr (output_dir_of W o))
                          (PStr (work_dir_of W o)) (PStrList sl)
                          (PStr (fresh_run_uuid W)) (PInt 0)
        | Raise e =>
            retval s' = retval s \/
            exists sl ps,
              opts.reports_only o = false /\
              init_fmriprep_wf W (kwargs_of W o sl) = Some e /\
              result s' PNone ps (PStr (output_dir_of W o)) (PStr (work_dir_of W o))
                     (PStrList sl) (PStr (fresh_run_uuid W)) (PInt 0)
        end) s.
Proof.
  unfold build_workflow, plugin_settings_of.
  wp_all.
  all: split; [done|]; try (left; reflexivity).
  all: try right.
  all: eexists _, _; repeat (split; [first [eassumption | reflexivity]|]).
  all: try (split; [in_trace|]).
  all: try (split; [first [eassumption | in_trace]|]).
  all: constructor; cbn [retval]; map_lookup.
Qed.

(** ** A worker that built the graph *)

Lemma build_workflow_built W o s :
  opts.reports_only o = false ->
  fst (build_workflow W o s) = Ok tt ->
  exists sl ps,
    collect_participants W (abspath W (opts.bids_dir o)) (opts.participant_label o) = Ok sl /\
    plugin_settings_of W o ps /\
    init_fmriprep_wf W (kwargs_of W o sl) = None /\
    result (snd (build_workflow W o s)) (PWorkflow (kwargs_of W o sl)) ps
           (PStr (output_dir_of W o)) (PStr (work_dir_of W o)) (PStrList sl)
           (PStr (fresh_run_uuid W)) (PInt 0).
Proof.
  intros Hr Hok. pose proof (wp_run_eq _ _ _ (build_workflow_result W o s)) as [_ H].
  simpl in H. rewrite Hok, Hr in H.
  destruct H as (sl & ps & ? & ? & ? & ? & ?). eauto 10.
Qed.

Lemma n_procs_computed total mem :
  getitem (computed_plugin_settings total mem) "plugin_args" ≫=
    (fun args => getitem args "n_procs") = Some (PInt total).
Proof. unfold computed_plugin_settings. by destruct (mem =? 0). Qed.

(** ** The thread planner *)

(** C3, as the code has it: the worker hands [per_task] threads to graph
    construction and, without an override document, [total] processes to
    the engine, where [total] is T when T >= 1 and the host core count C
    otherwise, and [per_task] is O when O is not 0 and otherwise
    min(total - 1 if total > 1 else C, 8).  This is the planner of the
    specification for every O >= 0; T=0, O=0, C=4 gives 4 and 3, and T=1,
    O=0 gives min(C, 8). *)
Theorem planner_thread_counts W o s :
  opts.reports_only o = false ->
  fst (build_workflow W o s) = Ok tt ->
  let T := opts.nthreads o in
  let O := opts.omp_nthreads o in
  let C := cpu_count W in
  let total := if 1 <=? T then T else C in
  let per_task := if O =? 0 then Z.min (if 1 <? total then total - 1 else C) 8 else O in
  let s' := snd (build_workflow W o s) in
  (wf_omp_nthreads <$> built_workflow s' = Some per_task) /\
  (opts.use_plugin o = None -> n_procs s' = Some (PInt total)) /\
  total = spec_total T C /\
  (0 <= O -> per_task = spec_per_task T O C) /\
  (T = 0 -> O = 0 -> C = 4 -> total = 4 /\ per_task = 3) /\
  (T = 1 -> O = 0 -> per_task = Z.min C 8).
Proof.
  intros Hr Hok T O C total per_task s'. subst s'.
  destruct (build_workflow_built W o s Hr Hok) as (sl & ps & _ & Hps & _ & Hres).
  assert (Htotal : total_threads W o = total).
  { unfold total_threads, plan_nthreads, total. fold T C.
    destruct (Z.ltb_spec T 1), (Z.leb_spec 1 T); lia. }
  assert (Hper : per_task_threads W o = per_task).
  { unfold per_task_threads, plan_omp_nthreads. by rewrite Htotal. }
  split; [|split; [|split; [|split; [|split]]]].
  - unfold built_workflow. rewrite (result_workflow _ _ _ _ _ _ _ _ Hres).
    simpl. by rewrite Hper.
  - intros Hnone. unfold n_procs.
    rewrite (result_plugin_settings _ _ _ _ _ _ _ _ Hres). simpl.
    unfold plugin_settings_of in Hps. rewrite Hnone in Hps. subst ps.
    by rewrite n_procs_computed, Htotal.
  - reflexivity.
  - unfold per_task, spec_per_task, spec_total. fold total.
    intros HO. destruct (Z.eqb_spec O 0), (Z.leb_spec 1 O); try lia; reflexivity.
  - intros HT HO HC. unfold per_task, total. by rewrite HT, HO, HC.
  - intros HT HO. unfold per_task, total. rewrite HT, HO. reflexivity.
Qed.

Lemma planner_thread_counts_witness :
  let s' := snd (build_workflow Sample.world Sample.defaults (initial Sample.env)) in
  wf_omp_nthreads <$> built_workflow s' = Some 3 /\ n_procs s' = Some (PInt 4).
Proof.
  pose proof (planner_thread_counts Sample.world Sample.defaults (initial Sample.env)
                eq_refl eq_refl) as (H1 & H2 & _).
  split; [exact H1 | exact (H2 eq_refl)].
Defined.

Lemma negative_omp_nthreads_is_kept :
  wf_omp_nthreads <$>
    built_workflow (snd (build_workflow Sample.world Sample.negative_omp (initial Sample.env)))
  ≠ Some (spec_per_task (opts.nthreads Sample.negative_omp)
                        (opts.omp_nthreads Sample.negative_omp)
                        (cpu_count Sample.world)).
Proof. vm_compute. discriminate. Qed.

(** ** The supervisor leaves the environment and the result alone *)

Lemma main_supervise_frame W o s :
  wp (main_supervise W o)
     (fun _ s' => environ s' = environ s /\ retval s' = retval s) s.
Proof.
  unfold main_supervise, main_finish, call_write_graph, call_run, gt0.
  wp_all; done.
Qed.

Lemma main_build_environ W o s :
  wp (main_build W o) (fun r s' => r = Ok tt /\ environ s' = environ s) s.
Proof. unfold main_build. wp_run. unfold wp. done. Qed.

(** ** License resolution *)

(** C4, as the code has it: the license path is chosen by a three-tier
    precedence on what was supplied, not on what exists: the explicit
    argument when given, else [$FS_LICENSE] when set, else
    [$FREESURFER_HOME/license.txt].  Only the chosen path is tested: when it
    does not exist the launch fails with a RuntimeError before a worker is
    spawned, whatever the other candidates name; when it exists the license
    step passes and the path is written to [FS_LICENSE] in the environment
    of the process. *)
Theorem license_precedence W o s :
  let lic := license_file o (environ s) in
  (forall p, opts.fs_license_file o = Some p -> p ≠ "" -> lic = p) /\
  (forall v, opts.fs_license_file o = None -> environ s !! "FS_LICENSE" = Some v -> lic = v) /\
  (opts.fs_license_file o = None -> environ s !! "FS_LICENSE" = None ->
   lic = join (default "" (environ s !! "FREESURFER_HOME")) ["license.txt"]) /\
  (path_exists W lic = false ->
   main W o s = (Raise (RuntimeError license_msg),
                 mkState (environ s) (retval s) (trace s ++ [EvSetStartMethod "forkserver"]))) /\
  (path_exists W lic = true ->
   fst (main_launch W o s) = Ok tt /\
   environ (snd (main W o s)) !! "FS_LICENSE" = Some lic).
Proof.
  intros lic. split; [|split; [|split; [|split]]].
  - intros p Hp Hne. unfold lic, license_file, or_default, truthy. rewrite Hp.
    apply String.eqb_neq in Hne. by rewrite Hne.
  - intros v Hp Hv. unfold lic, license_file, or_default, truthy, getenv.
    by rewrite Hp, Hv.
  - intros Hp Hv. unfold lic, license_file, or_default, truthy, getenv.
    by rewrite Hp, Hv.
  - intros Hex. apply wp_pair. unfold main, main_launch. wp_run.
    fold lic. rewrite Hex. simpl. wp_run. done.
  - intros Hex. split.
    + apply (wp_run_eq (main_launch W o) (fun r _ => r = Ok tt)).
      unfold main_launch. wp_run. fold lic. rewrite Hex. simpl. wp_run. done.
    + apply (wp_run_eq (main W o) (fun _ s' => environ s' !! "FS_LICENSE" = Some lic)).
      unfold main, main_launch. wp_run. fold lic. rewrite Hex. simpl. wp_run.
      eapply wp_mono; [apply main_build_environ|]. intros r s1 [-> Henv].
      eapply wp_mono; [apply main_supervise_frame|]. intros r s2 [Henv2 _].
      rewrite Henv2, Henv. simpl. apply lookup_insert_eq.
Qed.

Lemma license_precedence_witness :
  main Sample.world Sample.stale_license (initial Sample.env_license) =
    (Raise (RuntimeError license_msg),
     mkState Sample.env_license ∅ [EvSetStartMethod "forkserver"]) /\
  environ (snd (main Sample.world Sample.defaults (initial Sample.env))) !! "FS_LICENSE" =
    Some "/opt/freesurfer/license.txt".
Proof.
  split.
  - apply (license_precedence Sample.world Sample.stale_license (initial Sample.env_license)).
    reflexivity.
  - apply (license_precedence Sample.world Sample.defaults (initial Sample.env)).
    reflexivity.
Defined.

Lemma license_argument_shadows_environment :
  ~ (fst (main Sample.world Sample.stale_license (initial Sample.env_license)) =
       Raise (RuntimeError license_msg) <->
     spec_resolve_license Sample.world Sample.stale_license Sample.env_license = None).
Proof.
  intros [H _]. vm_compute in H. specialize (H eq_refl). discriminate.
Qed.

(** ** Reading the result of the worker *)

Lemma main_supervise_result W o s wf ps od wd sl ru rc :
  result s wf ps od wd sl ru rc ->
  main_supervise W o s = main_finish W o wf ps od wd sl ru rc s.
Proof.
  intros [H1 H2 H3 H4 H5 H6 H7]. unfold main_supervise, bind, retval_get.
  by rewrite H1, H2, H3, H4, H5, H6, H7.
Qed.

Lemma result_retval s s' wf ps od wd sl ru rc :
  result s wf ps od wd sl ru rc -> retval s' = retval s ->
  result s' wf ps od wd sl ru rc.
Proof. intros [] Heq. constructor; by rewrite Heq. Qed.

Lemma main_supervise_no_result W o s :
  retval s !! "workflow" = None ->
  main_supervise W o s = (Raise (KeyError "workflow"), s).
Proof. intros H. unfold main_supervise, bind, retval_get. by rewrite H. Qed.

(** ** The reports-only mode *)

(** In reports-only mode the worker asks for no graph. *)
Lemma build_workflow_reports_only_trace W o s :
  opts.reports_only o = true ->
  Forall (fun ev => is_init_wf ev = false /\ is_run ev = false) (trace s) ->
  wp (build_workflow W o)
     (fun _ s' => Forall (fun ev => is_init_wf ev = false /\ is_run ev = false) (trace s')) s.
Proof.
  intros Hr Hs. unfold build_workflow. rewrite Hr.
  wp_all; rewrite ?Forall_app; repeat split; auto; by repeat constructor.
Qed.

(** Whatever the report generator returns, a reports-only run ends with
    status 1 and neither builds nor runs a graph. *)
Lemma reports_only_exit_status W o env :
  opts.reports_only o = true ->
  exit_status (fst (main W o (initial env))) = 1 /\
  Forall (fun ev => is_init_wf ev = false /\ is_run ev = false)
         (trace (snd (main W o (initial env)))).
Proof.
  intros Hr.
  apply (wp_run_eq (main W o)
           (fun r s' => exit_status r = 1 /\
                        Forall (fun ev => is_init_wf ev = false /\ is_run ev = false)
                               (trace s'))).
  unfold main, main_launch, main_build, initial. wp_run.
  case_match; wp_run; [split; [done | by repeat constructor] |].
  match goal with |- wp _ _ ?s0 => set (s1 := s0) end.
  pose proof (wp_run_eq _ _ _ (build_workflow_result W o s1)) as [_ Hres].
  pose proof (wp_run_eq _ _ _ (build_workflow_reports_only_trace W o s1 Hr
                                  ltac:(by repeat constructor))) as Htr.
  simpl in Hres, Htr. unfold wp.
  destruct (build_workflow W o s1) as [r s2]. simpl in *.
  assert (Htr' : Forall (fun ev => is_init_wf ev = false /\ is_run ev = false)
                        (trace s2 ++ [EvProcessJoin])).
  { rewrite Forall_app. split; [done | by repeat constructor]. }
  destruct r as [[]|e].
  - destruct Hres as (sl & ps & _ & _ & _ & Hres). rewrite Hr in Hres.
    destruct Hres as [_ Hres].
    erewrite main_supervise_result; [| by eapply result_retval].
    done.
  - destruct Hres as [Hrv | (sl & ps & Hf & _)]; [| congruence].
    rewrite main_supervise_no_result; [done|]. simpl. by rewrite Hrv.
Qed.

(** C1 at the failing input: a reports-only run with a prior run
    identifier whose report generation finds no failure.  The worker
    returns status 0 with no graph handle, no graph is built or run, and
    main exits with status 1 instead of 0: the test for a missing graph
    handle at line 255 comes before the reports-only exit of line 261. *)
Theorem reports_only_zero_failures_exits_1 :
  let r := main Sample.world Sample.rerun_reports (initial Sample.env) in
  retval (snd r) !! "return_code" = Some (PInt 0) /\
  retval (snd r) !! "workflow" = Some PNone /\
  Forall (fun ev => is_init_wf ev = false /\ is_run ev = false) (trace (snd r)) /\
  fst r = Raise (SystemExit 1) /\
  exit_status (fst r) = 1.
Proof.
  split; [by vm_compute | split; [by vm_compute | split; [| by vm_compute]]].
  apply Forall_neither. by vm_compute.
Qed.

(** ** Failures inside the worker *)

(** A step that fails before the result is written raises out of the
    worker. *)
Lemma build_workflow_early_failure W o s e :
  early_failure W o e ->
  wp (build_workflow W o) (fun r s' => r = Raise e /\ retval s' = retval s) s.
Proof.
  intros Hf. unfold build_workflow.
  destruct Hf as [Ha | Ha Hs | e Ha Hs Hc | sl path e Ha Hs Hc Hu Hl | sl e Ha Hs Hc Hp Hd];
    unfold aroma_violation, syn_violation, log_dir_of, work_dir_of in *;
    unfold output_dir_of in *.
  - wp_all; simplify_eq; done.
  - wp_all; simplify_eq; try done; congruence.
  - wp_all; simplify_eq; try done; congruence.
  - wp_all; simplify_eq; try done; try congruence.
    all: split; congruence.
  - wp_all; simplify_eq; try done.
    all: try congruence.
    all: try (destruct_or?; destruct_and?; simplify_eq; done).
    all: try (destruct (Hp _ eq_refl); congruence).
Qed.

(** A worker that raises has neither run a graph nor generated reports. *)
Lemma build_workflow_raise_trace W o s :
  Forall (fun ev => is_run ev = false /\ is_generate_reports ev = false) (trace s) ->
  wp (build_workflow W o)
     (fun r s' =>
        match r with
        | Raise _ => Forall (fun ev => is_run ev = false /\ is_generate_reports ev = false)
                            (trace s')
        | Ok _ => True
        end) s.
Proof.
  intros Hs. unfold build_workflow.
  wp_all; rewrite ?Forall_app; repeat split; auto; by repeat constructor.
Qed.

(** C2, as the code has it: the worker has no handler.  When one of its
    steps before the result is written fails (a cross-option check, an
    invalid dataset during participant resolution, a directory that cannot
    be created), the exception leaves [build_workflow] and the result
    dictionary is left as it was: no status and no graph handle are
    recorded.  A caller that finds no result fails on its first read with a
    KeyError, so main ends with a nonzero status, and neither graph
    execution nor report generation has run. *)
Theorem worker_failure_escapes W o s e :
  early_failure W o e ->
  (fst (build_workflow W o s) = Raise e /\
   retval (snd (build_workflow W o s)) = retval s) /\
  (forall s0, retval s0 = ∅ ->
     main_supervise W o s0 = (Raise (KeyError "workflow"), s0) /\
     exit_status (fst (main_supervise W o s0)) = 1) /\
  (forall env,
     exit_status (fst (main W o (initial env))) = 1 /\
     Forall (fun ev => is_run ev = false /\ is_generate_reports ev = false)
            (trace (snd (main W o (initial env))))).
Proof.
  intros Hf. split; [|split].
  - exact (wp_run_eq _ _ _ (build_workflow_early_failure W o s e Hf)).
  - intros s0 H0.
    assert (Heq : main_supervise W o s0 = (Raise (KeyError "workflow"), s0)).
    { apply main_supervise_no_result. by rewrite H0. }
    by rewrite Heq.
  - intros env.
    apply (wp_run_eq (main W o)
             (fun r s' => exit_status r = 1 /\
                Forall (fun ev => is_run ev = false /\ is_generate_reports ev = false)
                       (trace s'))).
    unfold main, main_launch, main_build, initial. wp_run.
    case_match; wp_run; [split; [done | by repeat constructor] |].
    match goal with |- wp _ _ ?s0 => set (s1 := s0) end.
    pose proof (wp_run_eq _ _ _ (build_workflow_early_failure W o s1 e Hf)) as [Hr Hrv].
    pose proof (wp_run_eq _ _ _ (build_workflow_raise_trace W o s1
                                    ltac:(by repeat constructor))) as Htr.
    simpl in Hr, Hrv, Htr. unfold wp.
    destruct (build_workflow W o s1) as [r s2]. simpl in *. subst r.
    rewrite main_supervise_no_result; [| simpl; by rewrite Hrv].
    simpl. split; [done|]. rewrite Forall_app. split; [done | by repeat constructor].
Qed.

Lemma worker_failure_escapes_witness :
  (fst (build_workflow Sample.world Sample.aroma_without_template (initial Sample.env)) =
     Raise (RuntimeError (aroma_msg "MNI152NLin2009cAsym" ["T1w"])) /\
   retval (snd (build_workflow Sample.world Sample.aroma_without_template
                               (initial Sample.env))) = ∅) /\
  exit_status (fst (main Sample.world Sample.aroma_without_template (initial Sample.env))) = 1.
Proof.
  pose proof (worker_failure_escapes Sample.world Sample.aroma_without_template
                (initial Sample.env) _
                (aroma_check_fails Sample.world Sample.aroma_without_template eq_refl))
    as (H1 & _ & H3).
  split; [exact H1 | exact (proj1 (H3 Sample.env))].
Defined.

Lemma aroma_failure_is_not_captured :
  ~ failure_captured
      (fst (build_workflow Sample.world Sample.aroma_without_template (initial Sample.env)))
      (snd (build_workflow Sample.world Sample.aroma_without_template (initial Sample.env))).
Proof. intros [H _]. vm_compute in H. discriminate. Qed.

(** ** The calls of a run *)

(** What holds of every call the worker can make holds of its trace. *)
Lemma build_workflow_events W o s (P : event -> Prop) :
  (forall ev, build_event W o ev -> P ev) ->
  Forall P (trace s) ->
  wp (build_workflow W o) (fun _ s' => Forall P (trace s')) s.
Proof.
  intros HP Hs. unfold build_workflow.
  wp_all; rewrite ?Forall_app; repeat split; auto.
  all: constructor; [apply HP | constructor].
  all: first [ by constructor | by apply be_update_config
             | by apply be_generate_reports | by apply be_init_wf ].
Qed.

(** The same for the supervisor, on the result of a worker that built the
    graph. *)
Lemma main_finish_events W o s (P : event -> Prop) sl ps rc :
  opts.reports_only o = false ->
  plugin_settings_of W o ps ->
  (forall ev, main_event W o ev -> P ev) ->
  Forall P (trace s) ->
  wp (main_finish W o (PWorkflow (kwargs_of W o sl)) ps (PStr (output_dir_of W o))
                  (PStr (work_dir_of W o)) (PStrList sl) (PStr (fresh_run_uuid W)) rc)
     (fun _ s' => Forall P (trace s')) s.
Proof.
  intros Hr Hps HP Hs. unfold main_finish, call_write_graph, call_run. rewrite Hr.
  wp_all; rewrite ?Forall_app; repeat split; auto.
  all: constructor; [apply HP | constructor].
  all: first [ by constructor | by apply me_write_graph | by apply me_run
             | by apply me_generate_reports ].
Qed.

(** Every call of a run is one [main_event] allows. *)
Lemma main_events W o env :
  Forall (main_event W o) (trace (snd (main W o (initial env)))).
Proof.
  apply (wp_run_eq (main W o) (fun _ s' => Forall (main_event W o) (trace s'))).
  unfold main, main_launch, main_build, initial. wp_run.
  case_match; wp_run; [by repeat constructor |].
  match goal with |- wp _ _ ?s0 => set (s1 := s0) end.
  pose proof (wp_run_eq _ _ _ (build_workflow_result W o s1)) as [_ Hres].
  pose proof (wp_run_eq _ _ _ (build_workflow_events W o s1 (main_event W o)
                                  (me_build W o) ltac:(by repeat constructor))) as Htr.
  simpl in Hres, Htr. unfold wp.
  destruct (build_workflow W o s1) as [r s2]. simpl in *.
  assert (Htr' : Forall (main_event W o) (trace s2 ++ [EvProcessJoin])).
  { rewrite Forall_app. split; [done | by repeat constructor]. }
  destruct r as [[]|e].
  - destruct Hres as (sl & ps & _ & Hps & _ & Hres).
    destruct (opts.reports_only o) eqn:Hr.
    + destruct Hres as [_ Hres].
      erewrite main_supervise_result; [| by eapply result_retval]. done.
    + destruct Hres as [_ Hres].
      erewrite main_supervise_result; [| by eapply result_retval].
      by apply (main_finish_events W o _ (main_event W o) sl ps).
  - destruct Hres as [Hrv | (sl & ps & Hf & _ & Hres)].
    + rewrite main_supervise_no_result; [done|]. simpl. by rewrite Hrv.
    + erewrite main_supervise_result; [| by eapply result_retval]. done.
Qed.

(** ** Execution and reporting *)

(** C5, as the code has it: in a full run, an execution failure that is a
    RuntimeError whose message contains "Workflow did not execute cleanly"
    sets the status to 1, report generation still runs and its failure
    count is added, and main exits with 1 when the sum is positive and with
    0 otherwise (so 1 + 2 = 3 exits with 1); every other execution failure,
    an exception of another class with that message included, leaves main
    at once and report generation is not run.  A clean execution exits on
    the failure count alone. *)
Theorem execution_failure_classification W o s w d od wd sl ru rc :
  result s (PWorkflow w) (PDict d) od wd sl ru rc ->
  opts.reports_only o = false ->
  (opts.write_graph o = true -> wf_write_graph W w = None) ->
  let n := generate_reports W sl od wd ru in
  let executed :=
    (trace s ++ (if opts.write_graph o then [EvWriteGraph w] else []) ++
     [EvGcCollect; EvRun w (PDict d)])%list in
  let reported := (executed ++ [EvGenerateReports sl od wd ru])%list in
  match wf_run W w (PDict d) with
  | None =>
      main_supervise W o s =
        (Raise (SystemExit (if 0 <? 0 + n then 1 else 0)),
         mkState (environ s) (retval s) reported)
  | Some e =>
      if recoverable e
      then main_supervise W o s =
             (Raise (SystemExit (if 0 <? 1 + n then 1 else 0)),
              mkState (environ s) (retval s) reported)
      else main_supervise W o s = (Raise e, mkState (environ s) (retval s) executed)
  end.
Proof.
  intros Hres Hr Hwg n executed reported. subst reported executed n.
  unfold recoverable.
  rewrite (main_supervise_result W o s _ _ _ _ _ _ _ Hres).
  unfold main_finish, call_write_graph, call_run. rewrite Hr.
  destruct (opts.write_graph o) eqn:Hw; [rewrite (Hwg eq_refl)|].
  all: destruct (wf_run W w (PDict d)) as [e|] eqn:Hrun.
  all: try destruct (isinstance e "RuntimeError") eqn:Hi;
       try destruct (contains not_clean (exn_str e)) eqn:Hc.
  all: simpl; apply wp_pair; wp_run; rewrite ?Hrun; wp_run;
       rewrite ?Hi, ?Hc; wp_run; rewrite <- ?app_assoc; done.
Qed.

Lemma execution_failure_classification_witness :
  main_supervise Sample.unclean Sample.defaults
                 (Sample.after_build Sample.unclean Sample.defaults) =
    (Raise (SystemExit 1),
     mkState (environ (Sample.after_build Sample.unclean Sample.defaults))
             (retval (Sample.after_build Sample.unclean Sample.defaults))
             (trace (Sample.after_build Sample.unclean Sample.defaults) ++
              [EvGcCollect;
               EvRun (kwargs_of Sample.unclean Sample.defaults ["01"; "02"])
                     (computed_plugin_settings 4 0);
               EvGenerateReports (PStrList ["01"; "02"]) (PStr "/out")
                                 (PStr "/home/user/work")
                                 (PStr (fresh_run_uuid Sample.unclean))])).
Proof.
  assert (Hres : result (Sample.after_build Sample.unclean Sample.defaults)
                   (PWorkflow (kwargs_of Sample.unclean Sample.defaults ["01"; "02"]))
                   (PDict (list_to_map
                             [("plugin", PStr "MultiProc");
                              ("plugin_args",
                               mkdict [("n_procs", PInt 4);
                                       ("raise_insufficient", PBool false);
                                       ("maxtasksperchild", PInt 1)])]))
                   (PStr "/out") (PStr "/home/user/work") (PStrList ["01"; "02"])
                   (PStr (fresh_run_uuid Sample.unclean)) (PInt 0)).
  { constructor; vm_compute; reflexivity. }
  pose proof (execution_failure_classification Sample.unclean Sample.defaults _ _ _ _ _ _ _ _
                Hres eq_refl) as H.
  apply H. intros Hw. vm_compute in Hw. discriminate.
Defined.

Lemma unclean_message_of_other_class_propagates :
  ~ unclean_failure_survived Sample.unclean_other_class Sample.defaults Sample.env.
Proof.
  intros H.
  destruct (H (kwargs_of Sample.world Sample.defaults []) PNone _ eq_refl eq_refl)
    as [_ [c Hc]].
  vm_compute in Hc. discriminate.
Qed.

(** ** Rendering the graph *)

(** C8, as the code has it: the call of [write_graph] is not guarded.
    When [--write-graph] was requested and rendering raises, the exception
    leaves main at once: the reports-only exit is not reached, the graph is
    not executed and no report is generated. *)
Theorem write_graph_failure_is_fatal W o s w ps od wd sl ru rc e :
  result s (PWorkflow w) ps od wd sl ru rc ->
  opts.write_graph o = true ->
  wf_write_graph W w = Some e ->
  main_supervise W o s =
    (Raise e, mkState (environ s) (retval s) (trace s ++ [EvWriteGraph w])).
Proof.
  intros Hres Hw Hfail.
  rewrite (main_supervise_result W o s _ _ _ _ _ _ _ Hres).
  unfold main_finish, call_write_graph. rewrite Hw.
  apply wp_pair. wp_run. rewrite Hfail. done.
Qed.

Lemma write_graph_failure_is_fatal_witness :
  main_supervise Sample.no_dot Sample.with_graph
                 (Sample.after_build Sample.no_dot Sample.with_graph) =
    (Raise (Exc ["OSError"; "Exception"] "Cannot draw directed graph"),
     mkState (environ (Sample.after_build Sample.no_dot Sample.with_graph))
             (retval (Sample.after_build Sample.no_dot Sample.with_graph))
             (trace (Sample.after_build Sample.no_dot Sample.with_graph) ++
              [EvWriteGraph (kwargs_of Sample.no_dot Sample.with_graph ["01"; "02"])])).
Proof.
  assert (Hres : result (Sample.after_build Sample.no_dot Sample.with_graph)
                   (PWorkflow (kwargs_of Sample.no_dot Sample.with_graph ["01"; "02"]))
                   (computed_plugin_settings 4 0)
                   (PStr "/out") (PStr "/home/user/work") (PStrList ["01"; "02"])
                   (PStr (fresh_run_uuid Sample.no_dot)) (PInt 0)).
  { constructor; vm_compute; reflexivity. }
  apply (write_graph_failure_is_fatal Sample.no_dot Sample.with_graph _ _ _ _ _ _ _ _ _
           Hres eq_refl eq_refl).
Defined.

Lemma rendering_failure_stops_the_run :
  ~ rendering_failure_tolerated Sample.no_dot Sample.with_graph Sample.env.
Proof.
  intros H.
  destruct (H (kwargs_of Sample.world Sample.defaults []) _ eq_refl) as [Hrun | [Hr _]].
  - apply Exists_existsb in Hrun. vm_compute in Hrun. discriminate.
  - discriminate.
Qed.

(** ** The plugin override *)

(** C7, as the code has it: with [--use-plugin] the document loaded from
    the file is the whole of the plugin settings, stored in the result and
    handed to graph execution as it was read: nothing of the computed plan
    is merged into it, and neither the thread count nor the memory limit
    reaches the engine.  The per-task thread count handed to graph
    construction, however, is still planned from [--omp-nthreads] and
    [--nthreads]. *)
Theorem plugin_override_is_verbatim W o path doc :
  opts.use_plugin o = Some path ->
  loadyml W path = Ok doc ->
  (forall s,
     opts.reports_only o = false ->
     fst (build_workflow W o s) = Ok tt ->
     retval (snd (build_workflow W o s)) !! "plugin_settings" = Some doc /\
     wf_omp_nthreads <$> built_workflow (snd (build_workflow W o s)) =
       Some (plan_omp_nthreads (opts.omp_nthreads o)
                               (plan_nthreads (opts.nthreads o) (cpu_count W))
                               (cpu_count W))) /\
  (forall env w ps,
     EvRun w ps ∈ trace (snd (main W o (initial env))) ->
     ps = doc /\
     wf_omp_nthreads w = plan_omp_nthreads (opts.omp_nthreads o)
                                           (plan_nthreads (opts.nthreads o) (cpu_count W))
                                           (cpu_count W)).
Proof.
  intros Hp Hdoc. split.
  - intros s Hr Hok.
    destruct (build_workflow_built W o s Hr Hok) as (sl & ps & _ & Hps & _ & Hres).
    unfold plugin_settings_of in Hps. rewrite Hp, Hdoc in Hps. simplify_eq.
    split; [apply Hres|].
    unfold built_workflow. by rewrite (result_workflow _ _ _ _ _ _ _ _ Hres).
  - intros env w ps Hin.
    pose proof (main_events W o env) as Hev.
    rewrite Forall_forall in Hev. specialize (Hev _ Hin).
    inversion Hev as [| | | | ev Hb | | | sl ps' Hr Hps |]; subst.
    + inversion Hb.
    + unfold plugin_settings_of in Hps. rewrite Hp, Hdoc in Hps. by simplify_eq.
Qed.

Lemma plugin_override_is_verbatim_witness :
  retval (snd (build_workflow Sample.world Sample.plugin (initial Sample.env)))
    !! "plugin_settings" = Some (mkdict [("plugin", PStr "Linear")]) /\
  wf_omp_nthreads <$>
    built_workflow (snd (build_workflow Sample.world Sample.plugin (initial Sample.env))) =
    Some 3.
Proof.
  apply (plugin_override_is_verbatim Sample.world Sample.plugin "/etc/plugin.yml" _
           eq_refl eq_refl); reflexivity.
Defined.

Lemma omp_knob_reaches_graph_construction :
  ~ same_handed_over Sample.world Sample.plugin Sample.plugin_omp Sample.env.
Proof. intros [H _]. vm_compute in H. discriminate. Qed.

(** ** The stop-on-first-crash policy *)

Lemma stop_policy_config log_dir o :
  stop_policy (nipype_config log_dir o) =
    Some (PBool (opts.stop_on_first_crash o || bool_decide (opts.work_dir o = None))).
Proof. reflexivity. Qed.

(** A worker that returns has handed its configuration to nipype. *)
Lemma worker_hands_config W o s :
  fst (build_workflow W o s) = Ok tt ->
  EvUpdateConfig (nipype_config (log_dir_of W o) o) ∈ trace (snd (build_workflow W o s)).
Proof.
  intros Hok.
  pose proof (wp_run_eq _ _ _ (build_workflow_result W o s)) as [_ H].
  simpl in H. rewrite Hok in H. by destruct H as (sl & ps & _ & _ & Hcfg & _).
Qed.

(** C9: the [stop_on_first_crash] entry of every configuration handed to
    the execution engine in a run is true exactly when
    [--stop-on-first-crash] was given or no working directory was
    specified, and false otherwise. *)
Theorem stop_on_first_crash_policy W o env cfg :
  EvUpdateConfig cfg ∈ trace (snd (main W o (initial env))) ->
  exists b, stop_policy cfg = Some (PBool b) /\
            (b = true <-> opts.stop_on_first_crash o = true \/ opts.work_dir o = None).
Proof.
  intros Hin.
  pose proof (main_events W o env) as Hev.
  rewrite Forall_forall in Hev. specialize (Hev _ Hin).
  inversion Hev as [| | | | ev Hb | | | |]; subst.
  inversion Hb; subst.
  eexists. split; [apply stop_policy_config|].
  rewrite orb_true_iff, bool_decide_eq_true. tauto.
Qed.

Lemma stop_on_first_crash_policy_witness :
  (exists cfg,
     EvUpdateConfig cfg ∈ trace (snd (main Sample.world Sample.scratch (initial Sample.env))) /\
     stop_policy cfg = Some (PBool false)) /\
  (exists cfg,
     EvUpdateConfig cfg ∈ trace (snd (main Sample.world Sample.defaults (initial Sample.env))) /\
     stop_policy cfg = Some (PBool true)).
Proof.
  split.
  - destruct (some_update_config
                (trace (snd (main Sample.world Sample.scratch (initial Sample.env)))))
      as [cfg Hin]; [by vm_compute|].
    exists cfg. split; [exact Hin|].
    destruct (stop_on_first_crash_policy Sample.world Sample.scratch Sample.env cfg Hin)
      as (b & Hb & Hiff).
    rewrite Hb. destruct b; [|reflexivity].
    destruct (proj1 Hiff eq_refl) as [H | H]; discriminate H.
  - destruct (some_update_config
                (trace (snd (main Sample.world Sample.defaults (initial Sample.env)))))
      as [cfg Hin]; [by vm_compute|].
    exists cfg. split; [exact Hin|].
    destruct (stop_on_first_crash_policy Sample.world Sample.defaults Sample.env cfg Hin)
      as (b & Hb & Hiff).
    rewrite Hb. destruct b; [reflexivity|].
    by specialize (proj2 Hiff (or_intror eq_refl)).
Defined.

(** ** The run identifier in reports-only mode *)

(** C10: in reports-only mode with a prior run identifier, the worker
    hands back the identifier it generated itself (time stamp, underscore,
    UUID) under ['run_uuid']; the prior identifier goes to the report
    generation of the worker, whose count is the returned status, and every
    report generation of the run is that call of the worker. *)
Theorem reports_only_run_identifier W o s u :
  opts.reports_only o = true ->
  opts.run_uuid o = Some u ->
  fst (build_workflow W o s) = Ok tt ->
  let s' := snd (build_workflow W o s) in
  retval s' !! "run_uuid" = Some (PStr (strftime_now W +:+ "_" +:+ uuid4 W)) /\
  (exists sl,
     EvGenerateReports (PStrList sl) (PStr (output_dir_of W o)) (PStr (work_dir_of W o))
                       (PStr u) ∈ trace s' /\
     retval s' !! "return_code" =
       Some (PInt (generate_reports W (PStrList sl) (PStr (output_dir_of W o))
                                    (PStr (work_dir_of W o)) (PStr u)))) /\
  (forall env a b c d,
     EvGenerateReports a b c d ∈ trace (snd (main W o (initial env))) ->
     d = PStr u /\ build_event W o (EvGenerateReports a b c d)).
Proof.
  intros Hr Hu Hok s'. subst s'.
  pose proof (wp_run_eq _ _ _ (build_workflow_result W o s)) as [_ H].
  simpl in H. rewrite Hok, Hr in H.
  destruct H as (sl & ps & _ & _ & _ & Hin & Hres).
  rewrite Hu in Hin. simpl in Hin.
  split; [apply Hres | split].
  - exists sl. split; [done|].
    rewrite (result_return_code _ _ _ _ _ _ _ _ Hres).
    unfold reports_status. by rewrite Hu.
  - intros env a b c d Hev.
    pose proof (main_events W o env) as Hall.
    rewrite Forall_forall in Hall. specialize (Hall _ Hev).
    inversion Hall as [| | | | ev Hb | | | | sl' Hr']; subst; [| congruence].
    split; [|done]. inversion Hb; subst. by rewrite Hu.
Qed.

Lemma reports_only_run_identifier_witness :
  let s' := snd (build_workflow Sample.world Sample.rerun_reports (initial Sample.env)) in
  retval s' !! "run_uuid" =
    Some (PStr "20180101-120000_0f0e0d0c-0b0a-4908-8706-050403020100") /\
  EvGenerateReports (PStrList ["01"; "02"]) (PStr "/out") (PStr "/home/user/work")
                    (PStr "20171231-235959_prior") ∈ trace s'.
Proof.
  pose proof (reports_only_run_identifier Sample.world Sample.rerun_reports
                (initial Sample.env) "20171231-235959_prior" eq_refl eq_refl eq_refl)
    as (H1 & (sl & H2 & _) & _).
  split; [exact H1|].
  vm_compute. repeat first [apply list_elem_of_here | apply list_elem_of_further].
Defined.

(** ** The forced SyN check *)

Lemma syn_violation_true o :
  opts.force_syn o = true -> "template" ∉ opts.output_space o -> syn_violation o = true.
Proof.
  intros Hf Ht. unfold syn_violation. apply str_in_false in Ht.
  rewrite Ht, Hf. simpl. by rewrite orb_true_r.
Qed.

(** X1: with [--force-syn] and no "template" among the output spaces (and
    the AROMA check passed), the worker raises a RuntimeError with the SyN
    message as its only action: nothing is logged, no directory is asked
    for, and main ends with status 1. *)
Theorem forced_syn_requires_template_space W o s env :
  aroma_violation o = false ->
  opts.force_syn o = true ->
  "template" ∉ opts.output_space o ->
  build_workflow W o s = (Raise (RuntimeError syn_msg), s) /\
  Forall (fun ev => is_makedirs ev = false) (trace (snd (main W o (initial env)))) /\
  exit_status (fst (main W o (initial env))) = 1.
Proof.
  intros Ha Hf Ht.
  assert (Hb : forall s, build_workflow W o s = (Raise (RuntimeError syn_msg), s)).
  { intros s1. apply wp_pair. unfold build_workflow, aroma_violation in *.
    apply str_in_false in Ht.
    wp_prim. wp_prim. rewrite Ha. wp_simpl.
    wp_prim. wp_prim. rewrite Ht, Hf, orb_true_r. simpl.
    wp_run. by destruct s1. }
  split; [apply Hb|].
  pose proof (main_after_failed_build W o env _ Hb) as Hm.
  apply wp_run_eq in Hm. tauto.
Qed.

Lemma forced_syn_requires_template_space_witness :
  build_workflow Sample.world Sample2.forced_syn (initial Sample.env) =
    (Raise (RuntimeError syn_msg), initial Sample.env).
Proof.
  apply (forced_syn_requires_template_space Sample.world Sample2.forced_syn
           (initial Sample.env) Sample.env).
  - reflexivity.
  - reflexivity.
  - apply str_in_false. reflexivity.
Defined.

(** ** The worker when every step before graph construction succeeds *)

(** The run of a worker whose steps before graph construction succeed:
    graph construction may fail, report generation does not; the result is
    written before either. *)
Lemma build_workflow_setup_succeeds W o s sl ps :
  aroma_violation o = false ->
  syn_violation o = false ->
  setup_succeeds W o sl ps ->
  wp (build_workflow W o)
     (fun r s' =>
        let failure := if opts.reports_only o then None
                       else init_fmriprep_wf W (kwargs_of W o sl) in
        r = match failure with None => Ok tt | Some e => Raise e end /\
        environ s' = environ s /\
        trace s' =
          (trace s ++ advisories W o ++ setup_events W o ++ mode_events W o sl)%list /\
        result s'
               (if opts.reports_only o then PNone
                else match init_fmriprep_wf W (kwargs_of W o sl) with
                     | None => PWorkflow (kwargs_of W o sl)
                     | Some _ => PNone
                     end)
               ps (PStr (output_dir_of W o)) (PStr (work_dir_of W o)) (PStrList sl)
               (PStr (fresh_run_uuid W))
               (PInt (if opts.reports_only o then reports_status W o sl else 0)))
     s.
Proof.
  intros Ha Hs (Hc & Hps & Hd1 & Hd2 & Hd3).
  unfold build_workflow, advisories, setup_events, mode_events, plugin_settings_of,
    aroma_violation, syn_violation, kwargs_of, per_task_threads, total_threads,
    fresh_run_uuid, reports_status, log_dir_of, work_dir_of in *.
  unfold output_dir_of in *.
  wp_all; simplify_eq; try congruence.
  all: split; [reflexivity|]; split; [reflexivity|].
  all: split; [rewrite <- ?app_assoc; reflexivity|].
  all: constructor; cbn [retval]; map_lookup.
Qed.

(** A worker that returns has passed both checks and every step. *)
Lemma build_workflow_ok_inv W o s :
  wp (build_workflow W o)
     (fun r _ =>
        r = Ok tt ->
        aroma_violation o = false /\ syn_violation o = false /\
        exists sl ps,
          setup_succeeds W o sl ps /\
          (opts.reports_only o = false -> init_fmriprep_wf W (kwargs_of W o sl) = None))
     s.
Proof.
  unfold build_workflow, setup_succeeds, plugin_settings_of, aroma_violation,
    syn_violation, kwargs_of, per_task_threads, total_threads, fresh_run_uuid,
    log_dir_of, work_dir_of.
  unfold output_dir_of.
  wp_all; intros Hok; try discriminate Hok.
  all: split; [done | split; [done|]]; eexists _, _; repeat split; done.
Qed.

(** X2: the worker returns exactly when both cross-option checks pass,
    the participants are resolved, the plugin document (if any) loads, the
    three directories can be created and, outside reports-only mode, graph
    construction succeeds. *)
Theorem worker_returns_iff W o s :
  fst (build_workflow W o s) = Ok tt <->
  aroma_violation o = false /\ syn_violation o = false /\
  exists sl ps,
    setup_succeeds W o sl ps /\
    (opts.reports_only o = false -> init_fmriprep_wf W (kwargs_of W o sl) = None).
Proof.
  split.
  - exact (wp_run_eq _ _ _ (build_workflow_ok_inv W o s)).
  - intros (Ha & Hs & sl & ps & Hsetup & Hi).
    destruct (wp_run_eq _ _ _ (build_workflow_setup_succeeds W o s sl ps Ha Hs Hsetup))
      as [Hr _].
    simpl in Hr. rewrite Hr. destruct (opts.reports_only o); [done|]. by rewrite Hi.
Qed.

(** The run of a worker whose steps all succeed. *)
Lemma build_workflow_success W o s sl ps :
  aroma_violation o = false ->
  syn_violation o = false ->
  setup_succeeds W o sl ps ->
  (opts.reports_only o = false -> init_fmriprep_wf W (kwargs_of W o sl) = None) ->
  let s' := snd (build_workflow W o s) in
  fst (build_workflow W o s) = Ok tt /\
  environ s' = environ s /\
  trace s' = (trace s ++ advisories W o ++ setup_events W o ++ mode_events W o sl)%list /\
  result s' (if opts.reports_only o then PNone else PWorkflow (kwargs_of W o sl)) ps
         (PStr (output_dir_of W o)) (PStr (work_dir_of W o)) (PStrList sl)
         (PStr (fresh_run_uuid W))
         (PInt (if opts.reports_only o then reports_status W o sl else 0)).
Proof.
  intros Ha Hs Hsetup Hi s'. subst s'.
  destruct (wp_run_eq _ _ _ (build_workflow_setup_succeeds W o s sl ps Ha Hs Hsetup))
    as (Hr & Henv & Htr & Hres).
  simpl in Hr, Hres.
  destruct (opts.reports_only o); [done|].
  rewrite Hi in Hr, Hres; done.
Qed.

(** X3: the calls of a worker that returns, in order: the advisories, the
    output directory, the log directory, the working directory, the nipype
    configuration, the resource monitor if asked for, and then either the
    report generation (reports-only) or the graph construction.  It leaves
    the environment alone and writes the seven entries of the result. *)
Theorem worker_calls_in_order W o s sl ps :
  aroma_violation o = false ->
  syn_violation o = false ->
  setup_succeeds W o sl ps ->
  (opts.reports_only o = false -> init_fmriprep_wf W (kwargs_of W o sl) = None) ->
  let s' := snd (build_workflow W o s) in
  fst (build_workflow W o s) = Ok tt /\
  environ s' = environ s /\
  trace s' = (trace s ++ advisories W o ++ setup_events W o ++ mode_events W o sl)%list /\
  result s' (if opts.reports_only o then PNone else PWorkflow (kwargs_of W o sl)) ps
         (PStr (output_dir_of W o)) (PStr (work_dir_of W o)) (PStrList sl)
         (PStr (fresh_run_uuid W))
         (PInt (if opts.reports_only o then reports_status W o sl else 0)).
Proof. exact (build_workflow_success W o s sl ps). Qed.

Lemma worker_calls_in_order_witness :
  trace (snd (build_workflow Sample.world Sample2.advised (initial Sample.env))) =
    [EvLog 30 syn_msg []; EvLog 30 omp_warning [PInt 5; PInt 2];
     EvMakedirs "/out"; EvMakedirs "/out/fmriprep/logs"; EvMakedirs "/home/user/work";
     EvUpdateConfig (nipype_config "/out/fmriprep/logs" Sample2.advised);
     EvLog 25 INIT_MSG [PStr "1.0.8"; PStr "/data"; PStrList ["01"; "02"];
                        PStr (fresh_run_uuid Sample.world)];
     EvInitWf (kwargs_of Sample.world Sample2.advised ["01"; "02"])].
Proof.
  apply (worker_calls_in_order Sample.world Sample2.advised (initial Sample.env)
           ["01"; "02"] (computed_plugin_settings 2 2048)); try reflexivity.
  repeat split; reflexivity.
Defined.

Lemma worker_returns_iff_witness :
  fst (build_workflow Sample.world Sample.defaults (initial Sample.env)) = Ok tt.
Proof.
  apply (worker_returns_iff Sample.world Sample.defaults (initial Sample.env)).
  split; [reflexivity | split; [reflexivity|]].
  exists ["01"; "02"], (computed_plugin_settings 4 0).
  split; [repeat split; reflexivity | reflexivity].
Defined.

(** ** The advisory on per-task threads *)

(** X4: a worker that returns has warned that the per-task thread count
    exceeds the total exactly when 1 < total < per_task; the per-task count
    is not clamped: the graph is asked for with it as planned. *)
Theorem omp_advisory_iff W o env sl ps :
  aroma_violation o = false ->
  syn_violation o = false ->
  setup_succeeds W o sl ps ->
  opts.reports_only o = false ->
  init_fmriprep_wf W (kwargs_of W o sl) = None ->
  let s' := snd (build_workflow W o (initial env)) in
  (EvLog 30 omp_warning [PInt (per_task_threads W o); PInt (total_threads W o)] ∈ trace s' <->
   1 < total_threads W o < per_task_threads W o) /\
  wf_omp_nthreads <$> built_workflow s' = Some (per_task_threads W o).
Proof.
  intros Ha Hs Hsetup Hr Hi s'. subst s'.
  destruct (build_workflow_success W o (initial env) sl ps Ha Hs Hsetup (fun _ => Hi))
    as (_ & _ & Htr & Hres).
  rewrite Hr in Hres. split.
  - rewrite Htr. unfold initial, advisories, setup_events, mode_events.
    rewrite Hr. cbn [trace app].
    destruct ((1 <? total_threads W o) && (total_threads W o <? per_task_threads W o))
      eqn:Hc.
    + apply andb_true_iff in Hc as [H1 H2%Z.ltb_lt]. apply Z.ltb_lt in H1.
      split; [lia|]. intros _.
      destruct (negb _ && _); cbn [app]; rewrite !elem_of_cons; tauto.
    + split.
      * destruct (negb _ && _), (opts.resource_monitor o); cbn [app];
          rewrite !elem_of_cons, elem_of_nil; intros H;
          repeat (destruct H as [H | H]; try discriminate H); by destruct H.
      * intros [H1%Z.ltb_lt H2%Z.ltb_lt]. by rewrite H1, H2 in Hc.
  - unfold built_workflow. by rewrite (result_workflow _ _ _ _ _ _ _ _ Hres).
Qed.

Lemma omp_advisory_iff_witness :
  EvLog 30 omp_warning [PInt 5; PInt 2] ∈
    trace (snd (build_workflow Sample.world Sample2.advised (initial Sample.env))) /\
  wf_omp_nthreads <$>
    built_workflow (snd (build_workflow Sample.world Sample2.advised (initial Sample.env))) =
    Some 5.
Proof.
  destruct (omp_advisory_iff Sample.world Sample2.advised Sample.env ["01"; "02"]
              (computed_plugin_settings 2 2048)) as [Hiff Homp]; try reflexivity.
  { repeat split; reflexivity. }
  split; [|exact Homp]. apply Hiff. split; reflexivity.
Defined.

(** A worker that returns, with the participants and plugin settings it
    found. *)
Lemma build_workflow_ok W o s :
  fst (build_workflow W o s) = Ok tt ->
  exists sl ps,
    environ (snd (build_workflow W o s)) = environ s /\
    trace (snd (build_workflow W o s)) =
      (trace s ++ advisories W o ++ setup_events W o ++ mode_events W o sl)%list /\
    result (snd (build_workflow W o s))
           (if opts.reports_only o then PNone else PWorkflow (kwargs_of W o sl)) ps
           (PStr (output_dir_of W o)) (PStr (work_dir_of W o)) (PStrList sl)
           (PStr (fresh_run_uuid W))
           (PInt (if opts.reports_only o then reports_status W o sl else 0)).
Proof.
  intros Hok.
  destruct (wp_run_eq _ _ _ (build_workflow_ok_inv W o s) Hok)
    as (Ha & Hs & sl & ps & Hsetup & Hi).
  exists sl, ps. by destruct (build_workflow_success W o s sl ps Ha Hs Hsetup Hi) as (_ & ?).
Qed.

(** ** What the engine is handed without an override *)

Lemma some_run l : existsb is_run l = true -> exists w ps, EvRun w ps ∈ l.
Proof.
  induction l as [|x l IH]; simpl; [discriminate|].
  intros [Hx | Hl]%orb_true_iff.
  - destruct x; try discriminate. eexists _, _. apply list_elem_of_here.
  - destruct (IH Hl) as (w & ps & Hin). exists w, ps. by apply list_elem_of_further.
Qed.

(** X5: without [--use-plugin], every execution of the graph in a run is
    handed the MultiProc plugin with [n_procs] the planned total, one task
    per child process, [raise_insufficient] off, and a memory budget
    [memory_gb = mem_mb / 1024] that is present exactly when [--mem_mb] is
    not 0. *)
Theorem engine_receives_computed_plan W o env w ps :
  opts.use_plugin o = None ->
  EvRun w ps ∈ trace (snd (main W o (initial env))) ->
  getitem ps "plugin" = Some (PStr "MultiProc") /\
  exists args,
    getitem ps "plugin_args" = Some args /\
    getitem args "n_procs" =
      Some (PInt (if opts.nthreads o <? 1 then cpu_count W else opts.nthreads o)) /\
    getitem args "raise_insufficient" = Some (PBool false) /\
    getitem args "maxtasksperchild" = Some (PInt 1) /\
    getitem args "memory_gb" =
      (if opts.mem_mb o =? 0 then None else Some (PFloat (Qmake (opts.mem_mb o) 1024))).
Proof.
  intros Hp Hin.
  pose proof (main_events W o env) as Hev.
  rewrite Forall_forall in Hev. specialize (Hev _ Hin).
  inversion Hev as [| | | | ev Hb | | | sl ps' Hr Hps |]; subst; [inversion Hb|].
  unfold plugin_settings_of in Hps. rewrite Hp in Hps. subst ps.
  unfold computed_plugin_settings, total_threads, plan_nthreads.
  generalize (if opts.nthreads o <? 1 then cpu_count W else opts.nthreads o). intros n.
  destruct (opts.mem_mb o =? 0); (split; [reflexivity|]); eexists; repeat split; reflexivity.
Qed.

Lemma engine_receives_computed_plan_witness :
  exists w ps args,
    EvRun w ps ∈ trace (snd (main Sample.world Sample2.advised (initial Sample.env))) /\
    getitem ps "plugin_args" = Some args /\
    getitem args "n_procs" = Some (PInt 2) /\
    getitem args "memory_gb" = Some (PFloat (Qmake 2048 1024)).
Proof.
  destruct (some_run (trace (snd (main Sample.world Sample2.advised (initial Sample.env)))))
    as (w & ps & Hin); [by vm_compute|].
  destruct (engine_receives_computed_plan Sample.world Sample2.advised Sample.env w ps
              eq_refl Hin) as (_ & args & Ha & Hn & _ & _ & Hm).
  exists w, ps, args. repeat split; assumption.
Defined.

(** ** The run identifier outside reports-only mode *)

(** X6: [--run-uuid] has no effect without [--reports-only]: a full run
    with a prior run identifier is the same run as without it. *)
Theorem run_uuid_without_reports_only W o s u :
  opts.reports_only o = false ->
  main W (opts.with_run_uuid u o) s = main W o s.
Proof.
  intros Hr. destruct o. simpl in Hr. subst. reflexivity.
Qed.

Lemma run_uuid_without_reports_only_witness :
  main Sample.world (opts.with_run_uuid (Some "20171231-235959_prior") Sample.defaults)
       (initial Sample.env) =
  main Sample.world Sample.defaults (initial Sample.env).
Proof.
  apply (run_uuid_without_reports_only Sample.world Sample.defaults (initial Sample.env)).
  reflexivity.
Defined.

(** ** Log levels *)

(** X7: once the license is found, main sets the four loggers ([cli],
    [workflow], [interface], [utils]) to one level, 25 - 5 * v for v
    occurrences of [-v] up to three and the debug level 10 from then on; it
    is never below 10, and never above 25 since [-v] is counted. *)
Theorem verbosity_sets_log_level W o s :
  path_exists W (license_file o (environ s)) = true ->
  exists level,
    main_launch W o s =
      (Ok tt,
       mkState (<["FS_LICENSE" := license_file o (environ s)]> (environ s)) (retval s)
               (trace s ++ [EvSetStartMethod "forkserver"; EvSetLevel "cli" level;
                            EvSetLevel "workflow" level; EvSetLevel "interface" level;
                            EvSetLevel "utils" level])) /\
    10 <= level /\
    (0 <= opts.verbose_count o -> level <= 25) /\
    (opts.verbose_count o <= 3 -> level = 25 - 5 * opts.verbose_count o) /\
    (3 <= opts.verbose_count o -> level = 10).
Proof.
  intros Hex. exists (Z.max (25 - 5 * opts.verbose_count o) 10). split.
  - apply wp_pair. unfold main_launch. wp_run. rewrite Hex. simpl. wp_run.
    rewrite <- !app_assoc. done.
  - lia.
Qed.

Lemma verbosity_sets_log_level_witness :
  exists level,
    main_launch Sample.world Sample2.very_verbose (initial Sample.env) =
      (Ok tt,
       mkState (<["FS_LICENSE" := "/opt/freesurfer/license.txt"]> Sample.env) ∅
               [EvSetStartMethod "forkserver"; EvSetLevel "cli" level;
                EvSetLevel "workflow" level; EvSetLevel "interface" level;
                EvSetLevel "utils" level]) /\
    level = 10.
Proof.
  destruct (verbosity_sets_log_level Sample.world Sample2.very_verbose (initial Sample.env)
              eq_refl) as (level & Hm & _ & _ & _ & H10).
  exists level. split; [exact Hm | apply H10; by vm_compute].
Defined.

(** ** The working directory *)

(** X8: an empty [-w] is replaced by the default working directory
    [work], as no [-w] is; but only a missing [-w] turns on the
    stop-on-first-crash policy: with an empty one the policy is the flag
    alone. *)
Theorem empty_work_dir W o s :
  opts.work_dir o = None \/ opts.work_dir o = Some "" ->
  fst (build_workflow W o s) = Ok tt ->
  EvMakedirs (abspath W "work") ∈ trace (snd (build_workflow W o s)) /\
  exists cfg,
    EvUpdateConfig cfg ∈ trace (snd (build_workflow W o s)) /\
    stop_policy cfg =
      Some (PBool (match opts.work_dir o with
                   | Some _ => opts.stop_on_first_crash o
                   | None => true
                   end)).
Proof.
  intros Hw Hok. destruct (build_workflow_ok W o s Hok) as (sl & ps & _ & Htr & _).
  rewrite Htr. unfold setup_events. split.
  - assert (Hwd : work_dir_of W o = abspath W "work").
    { unfold work_dir_of, or_default. by destruct Hw as [-> | ->]. }
    rewrite <- Hwd. rewrite !elem_of_app, !elem_of_cons. tauto.
  - exists (nipype_config (log_dir_of W o) o). split.
    + rewrite !elem_of_app, !elem_of_cons. tauto.
    + rewrite stop_policy_config. destruct Hw as [-> | ->].
      * by rewrite bool_decide_eq_true_2, orb_true_r.
      * by rewrite bool_decide_eq_false_2, orb_false_r.
Qed.

Lemma empty_work_dir_witness :
  EvMakedirs "/home/user/work" ∈
    trace (snd (build_workflow Sample.world Sample2.empty_work_dir (initial Sample.env))) /\
  exists cfg,
    EvUpdateConfig cfg ∈
      trace (snd (build_workflow Sample.world Sample2.empty_work_dir (initial Sample.env))) /\
    stop_policy cfg = Some (PBool false).
Proof.
  apply (empty_work_dir Sample.world Sample2.empty_work_dir (initial Sample.env)).
  - by right.
  - by vm_compute.
Defined.

(** ** Paths *)

Lemma app_cons_string x (a b : string) : String x a +:+ b = String x (a +:+ b).
Proof. reflexivity. Qed.

Lemma prefix_app a b : String.prefix a (a +:+ b) = true.
Proof.
  induction a as [|c a IH]; [by destruct b|].
  rewrite app_cons_string. simpl. by destruct (Ascii.ascii_dec c c).
Qed.

Lemma app_assoc_string (a b c : string) : (a +:+ b) +:+ c = a +:+ (b +:+ c).
Proof.
  induction a as [|x a IH]; [done|]. rewrite !app_cons_string. by f_equal.
Qed.

Lemma endswith_sep_app a c b :
  endswith_sep (a +:+ String c b) = endswith_sep (String c b).
Proof.
  induction a as [|x a IH]; [done|].
  rewrite app_cons_string. rewrite <- IH.
  destruct a; reflexivity.
Qed.

Lemma eqb_app_nonempty a c b : String.eqb (a +:+ String c b) "" = false.
Proof. by destruct a. Qed.

(** The log directory of lines 364-365, spelled out. *)
Lemma join_fmriprep_logs od :
  join od ["fmriprep"; "logs"] =
    od +:+ (if (String.eqb od "" || endswith_sep od)%bool then "" else "/") +:+
    "fmriprep/logs".
Proof.
  assert (Hne : forall a, String.eqb (a +:+ "fmriprep") "" = false)
    by (intros a; apply eqb_app_nonempty).
  assert (Hnp : forall a, endswith_sep (a +:+ "fmriprep") = false)
    by (intros a; by rewrite endswith_sep_app).
  unfold join. simpl. unfold join2 at 2. simpl.
  destruct (String.eqb od "" || endswith_sep od)%bool; unfold join2; simpl.
  - rewrite Hne, Hnp. simpl. by rewrite app_assoc_string.
  - rewrite <- app_assoc_string, Hne, Hnp. simpl. by rewrite !app_assoc_string.
Qed.

(** X9: the log directory is [fmriprep/logs] under the output directory,
    joined with exactly one separator; a worker that returns has created
    it, and the configuration it hands to nipype sends both the log files
    and the crash dumps there. *)
Theorem logs_under_output_dir W o s :
  fst (build_workflow W o s) = Ok tt ->
  let od := abspath W (opts.output_dir o) in
  let ld := od +:+ (if (String.eqb od "" || endswith_sep od)%bool then "" else "/") +:+
            "fmriprep/logs" in
  String.prefix od ld = true /\
  EvMakedirs ld ∈ trace (snd (build_workflow W o s)) /\
  exists cfg,
    EvUpdateConfig cfg ∈ trace (snd (build_workflow W o s)) /\
    getitem cfg "logging" ≫= (fun l => getitem l "log_directory") = Some (PStr ld) /\
    getitem cfg "logging" ≫= (fun l => getitem l "log_to_file") = Some (PBool true) /\
    getitem cfg "execution" ≫= (fun e => getitem e "crashdump_dir") = Some (PStr ld).
Proof.
  intros Hok od ld.
  assert (Hld : log_dir_of W o = ld).
  { unfold log_dir_of, output_dir_of. apply join_fmriprep_logs. }
  destruct (build_workflow_ok W o s Hok) as (sl & ps & _ & Htr & _).
  rewrite Htr. unfold setup_events. rewrite Hld. split; [apply prefix_app|]. split.
  - rewrite !elem_of_app, !elem_of_cons. tauto.
  - exists (nipype_config ld o). split; [|by repeat split].
    rewrite !elem_of_app, !elem_of_cons. tauto.
Qed.

Lemma logs_under_output_dir_witness :
  EvMakedirs "/out/fmriprep/logs" ∈
    trace (snd (build_workflow Sample.world Sample.defaults (initial Sample.env))).
Proof.
  apply (logs_under_output_dir Sample.world Sample.defaults (initial Sample.env)).
  by vm_compute.
Defined.

(** ** A full run *)

Lemma wp_rewrite {A} (m m' : M A) (Q : res A -> state -> Prop) s :
  m s = m' s -> wp m' Q s -> wp m Q s.
Proof. unfold wp. by intros ->. Qed.

(** The run of [main] up to the point where the worker has ended, when
    the license is found and the steps of the worker succeed. *)
Lemma main_until_supervise W o env sl ps (Q : res unit -> state -> Prop) :
  path_exists W (license_file o env) = true ->
  aroma_violation o = false ->
  syn_violation o = false ->
  setup_succeeds W o sl ps ->
  (forall s2,
     environ s2 = <["FS_LICENSE" := license_file o env]> env ->
     trace s2 = (launch_events o ++ [EvProcessStart] ++ advisories W o ++
                 setup_events W o ++ mode_events W o sl ++ [EvProcessJoin])%list ->
     result s2
       (if opts.reports_only o then PNone
        else match init_fmriprep_wf W (kwargs_of W o sl) with
             | None => PWorkflow (kwargs_of W o sl)
             | Some _ => PNone
             end)
       ps (PStr (output_dir_of W o)) (PStr (work_dir_of W o)) (PStrList sl)
       (PStr (fresh_run_uuid W))
       (PInt (if opts.reports_only o then reports_status W o sl else 0)) ->
     wp (main_supervise W o) Q s2) ->
  wp (main W o) Q (initial env).
Proof.
  intros Hex Ha Hs Hsetup HQ.
  unfold main, main_launch, main_build, initial. wp_run. rewrite Hex. simpl. wp_run.
  match goal with |- wp _ _ ?s0 => set (s1 := s0) end.
  destruct (wp_run_eq _ _ _ (build_workflow_setup_succeeds W o s1 sl ps Ha Hs Hsetup))
    as (_ & _ & Htr & Hres).
  simpl in Hres. unfold wp at 1. apply HQ; simpl.
  - reflexivity.
  - rewrite Htr. unfold launch_events. subst s1. cbn [trace].
    rewrite <- !app_assoc. reflexivity.
  - eapply result_retval; [exact Hres | reflexivity].
Qed.

(** X10: the phases of a full run in order.  When the license is found,
    the worker builds the graph, rendering (if asked for) succeeds and the
    engine runs the graph cleanly, main makes the calls of the launch, of
    the worker, of the rendering, of the execution with the plugin
    settings of the worker and of the report generation with the
    participants, directories and run identifier of the worker, and exits
    with 1 when the report generation counts failures and with 0
    otherwise. *)
Theorem clean_full_run W o env sl d :
  path_exists W (license_file o env) = true ->
  aroma_violation o = false ->
  syn_violation o = false ->
  setup_succeeds W o sl (PDict d) ->
  opts.reports_only o = false ->
  init_fmriprep_wf W (kwargs_of W o sl) = None ->
  (opts.write_graph o = true -> wf_write_graph W (kwargs_of W o sl) = None) ->
  wf_run W (kwargs_of W o sl) (PDict d) = None ->
  let n := generate_reports W (PStrList sl) (PStr (output_dir_of W o))
                            (PStr (work_dir_of W o)) (PStr (fresh_run_uuid W)) in
  fst (main W o (initial env)) = Raise (SystemExit (if 0 <? n then 1 else 0)) /\
  trace (snd (main W o (initial env))) =
    (launch_events o ++ [EvProcessStart] ++ advisories W o ++ setup_events W o ++
     mode_events W o sl ++ [EvProcessJoin] ++
     (if opts.write_graph o then [EvWriteGraph (kwargs_of W o sl)] else []) ++
     [EvGcCollect; EvRun (kwargs_of W o sl) (PDict d);
      EvGenerateReports (PStrList sl) (PStr (output_dir_of W o)) (PStr (work_dir_of W o))
                        (PStr (fresh_run_uuid W))])%list.
Proof.
  intros Hex Ha Hs Hsetup Hr Hi Hwg Hrun n. subst n.
  apply (wp_run_eq (main W o) (fun r s' => r = _ /\ trace s' = _)).
  apply (main_until_supervise W o env sl (PDict d)); try done.
  intros s2 _ Htr Hres. rewrite Hr, Hi in Hres.
  eapply wp_rewrite; [apply (main_supervise_result W o s2 _ _ _ _ _ _ _ Hres)|].
  unfold main_finish, call_write_graph, call_run, is_None. rewrite Hr, Hrun.
  destruct (opts.write_graph o) eqn:Hw; [rewrite (Hwg eq_refl)|].
  all: wp_run; rewrite Htr; split; [done|].
  all: by rewrite <- !app_assoc.
Qed.

Lemma clean_full_run_witness :
  fst (main Sample.world Sample.defaults (initial Sample.env)) = Raise (SystemExit 0).
Proof.
  eapply (clean_full_run Sample.world Sample.defaults Sample.env ["01"; "02"]);
    first [reflexivity | repeat split; reflexivity | discriminate].
Defined.

(** ** Failure of graph construction *)

(** X11: when graph construction fails, the exception leaves the worker
    after the result has been written with no graph handle and status 0.
    Main finds the handle missing and exits with status 1 right after the
    worker has ended: nothing is rendered, executed or reported. *)
Theorem graph_construction_failure W o env sl ps e :
  path_exists W (license_file o env) = true ->
  aroma_violation o = false ->
  syn_violation o = false ->
  setup_succeeds W o sl ps ->
  opts.reports_only o = false ->
  init_fmriprep_wf W (kwargs_of W o sl) = Some e ->
  (forall s,
     fst (build_workflow W o s) = Raise e /\
     retval (snd (build_workflow W o s)) !! "workflow" = Some PNone /\
     retval (snd (build_workflow W o s)) !! "return_code" = Some (PInt 0)) /\
  fst (main W o (initial env)) = Raise (SystemExit 1) /\
  trace (snd (main W o (initial env))) =
    (launch_events o ++ [EvProcessStart] ++ advisories W o ++ setup_events W o ++
     mode_events W o sl ++ [EvProcessJoin])%list.
Proof.
  intros Hex Ha Hs Hsetup Hr Hi. split.
  - intros s.
    destruct (wp_run_eq _ _ _ (build_workflow_setup_succeeds W o s sl ps Ha Hs Hsetup))
      as (Hres & _ & _ & Hrv).
    simpl in Hres. rewrite Hr, Hi in Hres, Hrv.
    split; [done|]. split; apply Hrv.
  - apply (wp_run_eq (main W o) (fun r s' => r = _ /\ trace s' = _)).
    apply (main_until_supervise W o env sl ps); try done.
    intros s2 _ Htr Hres. rewrite Hr, Hi in Hres.
    eapply wp_rewrite; [apply (main_supervise_result W o s2 _ _ _ _ _ _ _ Hres)|].
    unfold main_finish, is_None. wp_run. done.
Qed.

Lemma graph_construction_failure_witness :
  fst (main Sample2.no_graph Sample.defaults (initial Sample.env)) = Raise (SystemExit 1).
Proof.
  eapply (graph_construction_failure Sample2.no_graph Sample.defaults Sample.env
            ["01"; "02"] (computed_plugin_settings 4 0));
    first [reflexivity | repeat split; reflexivity].
Defined.

(** ** The default license path *)

Lemma endswith_sep_spec h : endswith_sep h = true <-> exists h', h = h' +:+ "/".
Proof.
  induction h as [|c h IH].
  - split; [discriminate|]. intros [[|] H]; discriminate H.
  - destruct h as [|c' h].
    + simpl. split.
      * intros Hc. apply Ascii.eqb_eq in Hc. subst c. by exists "".
      * intros [[|x h'] H].
        -- injection H as Hc. subst c. reflexivity.
        -- rewrite app_cons_string in H. injection H as _ H. by destruct h'.
    + change (endswith_sep (String c (String c' h))) with (endswith_sep (String c' h)).
      rewrite IH. split.
      * intros [h' Hh]. exists (String c h'). by rewrite app_cons_string, <- Hh.
      * intros [[|x h'] H]; [discriminate H|].
        rewrite app_cons_string in H. injection H as _ H. by exists h'.
Qed.

(** X12: with neither [--fs-license-file] nor [$FS_LICENSE], the license
    is looked for at [license.txt] inside [$FREESURFER_HOME], joined with
    exactly one separator; when [$FREESURFER_HOME] is unset or empty, it is
    the relative path [license.txt], resolved against the current
    directory. *)
Theorem default_license_path o env :
  opts.fs_license_file o = None ->
  env !! "FS_LICENSE" = None ->
  (env !! "FREESURFER_HOME" = None \/ env !! "FREESURFER_HOME" = Some "" ->
   license_file o env = "license.txt") /\
  (forall h, env !! "FREESURFER_HOME" = Some (h +:+ "/") ->
             license_file o env = h +:+ "/license.txt") /\
  (forall h, env !! "FREESURFER_HOME" = Some h -> h ≠ "" ->
             (forall h', h ≠ h' +:+ "/") ->
             license_file o env = h +:+ "/license.txt").
Proof.
  intros Hf He. unfold license_file, or_default, getenv. rewrite Hf, He. simpl.
  split; [|split].
  - by intros [-> | ->].
  - intros h ->. simpl. unfold join, join2. simpl.
    assert (Hs : endswith_sep (h +:+ "/") = true) by (apply endswith_sep_spec; eauto).
    rewrite Hs, orb_true_r. by rewrite app_assoc_string.
  - intros h -> Hne Hns. simpl. unfold join, join2. simpl.
    apply String.eqb_neq in Hne. rewrite Hne.
    destruct (endswith_sep h) eqn:Hs; [|done].
    apply endswith_sep_spec in Hs as [h' ->]. by destruct (Hns h').
Qed.

Lemma default_license_path_witness :
  license_file Sample.defaults Sample.env = "/opt/freesurfer/license.txt".
Proof.
  destruct (default_license_path Sample.defaults Sample.env eq_refl eq_refl)
    as (_ & _ & H).
  apply (H "/opt/freesurfer").
  - reflexivity.
  - discriminate.
  - intros h' Hh.
    assert (Hs : endswith_sep "/opt/freesurfer" = true)
      by (apply endswith_sep_spec; exists h'; exact Hh).
    discriminate Hs.
Defined.

(** ** The choices of the parser and the cross-option checks *)

(** The sample invocation is the parser's default namespace. *)
Lemma sample_defaults : Sample.defaults = parser_defaults "/data" "/out".
Proof. reflexivity. Qed.

(** X13: on a command line the parser accepts, the template is always the
    one AROMA needs, so the AROMA check fails exactly when [--use-aroma] is
    given without "template" among the output spaces; the SyN check fails
    exactly when [--force-syn] is; and with "template" among the output
    spaces, as by default, neither check fails. *)
Theorem parser_choices_and_checks o :
  admissible o = true ->
  (aroma_violation o = true <->
   opts.use_aroma o = true /\ "template" ∉ opts.output_space o) /\
  (syn_violation o = true <->
   opts.force_syn o = true /\ "template" ∉ opts.output_space o) /\
  ("template" ∈ opts.output_space o ->
   aroma_violation o = false /\ syn_violation o = false).
Proof.
  intros Hadm. unfold admissible in Hadm.
  repeat (apply andb_true_iff in Hadm as [Hadm ?]).
  assert (Ht : String.eqb (opts.template o) "MNI152NLin2009cAsym" = true).
  { match goal with H : str_in (opts.template o) _ = true |- _ =>
      simpl in H; by rewrite orb_false_r in H end. }
  unfold aroma_violation, syn_violation. rewrite Ht. simpl.
  rewrite <- !str_in_false, <- str_in_spec.
  destruct (str_in "template" (opts.output_space o)), (opts.use_aroma o),
    (opts.force_syn o), (opts.use_syn_sdc o); simpl; intuition congruence.
Qed.

Lemma parser_choices_and_checks_witness :
  aroma_violation (opts.with_use_aroma true (parser_defaults "/data" "/out")) = false /\
  syn_violation (opts.with_use_aroma true (parser_defaults "/data" "/out")) = false.
Proof.
  apply (parser_choices_and_checks (opts.with_use_aroma true (parser_defaults "/data" "/out"))).
  - reflexivity.
  - apply str_in_spec. reflexivity.
Defined.

(** ** What an exit status of 0 means *)

Lemma main_finish_exit_zero W o s w ps od wd sl ru rc :
  opts.reports_only o = false ->
  engine_does_not_exit W ->
  wp (main_finish W o (PWorkflow w) ps od wd sl ru rc)
     (fun r s' =>
        exit_status r = 0 ->
        EvRun w ps ∈ trace s' /\
        EvGenerateReports sl od wd ru ∈ trace s' /\
        match wf_run W w ps with
        | None => generate_reports W sl od wd ru <= 0
        | Some e => recoverable e = true /\ generate_reports W sl od wd ru < 0
        end) s.
Proof.
  intros Hr [Hwg Hrun]. unfold main_finish, call_write_graph, call_run, recoverable, is_None.
  rewrite Hr.
  wp_all; intros Hexit; simpl in Hexit; try discriminate Hexit.
  all: try match goal with
           | H : isinstance (TypeError _) _ = true |- _ => by vm_compute in H
           end.
  all: try match goal with
           | H : wf_write_graph _ _ = Some ?e |- _ =>
               destruct e; [discriminate Hexit | by destruct (Hwg _ _ H)]
           end.
  all: try match goal with
           | H : wf_run _ _ _ = Some ?e, Hx : match ?e with _ => _ end = 0 |- _ =>
               destruct e; [discriminate Hx | by destruct (Hrun _ _ _ H)]
           end.
  all: split; [in_trace|]; split; [in_trace|].
  all: repeat match goal with
              | H : (0 <? _) = false |- _ => apply Z.ltb_ge in H
              end.
  all: first [lia | split; [done | lia]].
Qed.

(** X14: unless rendering or running the graph ends the process itself,
    main exits with status 0 only in a full run in which the graph was
    executed and the reports were generated, and then either execution was
    clean and no participant failed, or it was the recoverable failure and
    the count of failing participants was negative; with a report
    generator that counts, status 0 means a clean execution and no failing
    participant. *)
Theorem exit_zero_means_executed_and_reported W o env :
  engine_does_not_exit W ->
  exit_status (fst (main W o (initial env))) = 0 ->
  opts.reports_only o = false /\
  exists sl ps,
    let n := generate_reports W (PStrList sl) (PStr (output_dir_of W o))
                              (PStr (work_dir_of W o)) (PStr (fresh_run_uuid W)) in
    EvRun (kwargs_of W o sl) ps ∈ trace (snd (main W o (initial env))) /\
    EvGenerateReports (PStrList sl) (PStr (output_dir_of W o)) (PStr (work_dir_of W o))
                      (PStr (fresh_run_uuid W)) ∈ trace (snd (main W o (initial env))) /\
    match wf_run W (kwargs_of W o sl) ps with
    | None => n <= 0
    | Some e => recoverable e = true /\ n < 0
    end.
Proof.
  intros Heng.
  apply (wp_run_eq (main W o)
           (fun r s' =>
              exit_status r = 0 ->
              opts.reports_only o = false /\
              exists sl ps,
                EvRun (kwargs_of W o sl) ps ∈ trace s' /\
                EvGenerateReports (PStrList sl) (PStr (output_dir_of W o))
                                  (PStr (work_dir_of W o)) (PStr (fresh_run_uuid W))
                  ∈ trace s' /\
                match wf_run W (kwargs_of W o sl) ps with
                | None =>
                    generate_reports W (PStrList sl) (PStr (output_dir_of W o))
                      (PStr (work_dir_of W o)) (PStr (fresh_run_uuid W)) <= 0
                | Some e =>
                    recoverable e = true /\
                    generate_reports W (PStrList sl) (PStr (output_dir_of W o))
                      (PStr (work_dir_of W o)) (PStr (fresh_run_uuid W)) < 0
                end)).
  unfold main, main_launch, main_build, initial. wp_run.
  case_match; wp_run; [discriminate|].
  match goal with |- wp _ _ ?s0 => set (s1 := s0) end.
  pose proof (wp_run_eq _ _ _ (build_workflow_result W o s1)) as [_ Hres].
  simpl in Hres. unfold wp at 1.
  destruct (build_workflow W o s1) as [r s2]. simpl in *.
  destruct r as [[]|e].
  - destruct Hres as (sl & ps & _ & _ & _ & Hres).
    destruct (opts.reports_only o) eqn:Hr.
    + destruct Hres as [_ Hres].
      eapply wp_rewrite; [apply main_supervise_result; by eapply result_retval|].
      unfold main_finish, is_None. wp_run. discriminate.
    + destruct Hres as [_ Hres].
      eapply wp_rewrite; [apply main_supervise_result; by eapply result_retval|].
      eapply wp_mono; [by apply main_finish_exit_zero|].
      intros r s' Hfin Hexit. split; [done|]. exists sl, ps. exact (Hfin Hexit).
  - destruct Hres as [Hrv | (sl & ps & Hf & _ & Hres)].
    + eapply wp_eq; [apply main_supervise_no_result; simpl; by rewrite Hrv|].
      discriminate.
    + eapply wp_rewrite; [apply main_supervise_result; by eapply result_retval|].
      unfold main_finish, is_None. wp_run. discriminate.
Qed.

Lemma exit_zero_means_executed_and_reported_witness :
  opts.reports_only Sample.defaults = false /\
  exists sl ps,
    EvRun (kwargs_of Sample.world Sample.defaults sl) ps ∈
      trace (snd (main Sample.world Sample.defaults (initial Sample.env))).
Proof.
  destruct (exit_zero_means_executed_and_reported Sample.world Sample.defaults Sample.env)
    as (Hr & sl & ps & Hrun & _).
  - split; discriminate.
  - by vm_compute.
  - split; [exact Hr|]. exists sl, ps. exact Hrun.
Defined.


(** ** The test for a recoverable failure *)

Lemma prefix_spec pat s : String.prefix pat s = true <-> exists post, s = pat +:+ post.
Proof.
  revert s. induction pat as [|c pat IH]; intros s.
  - split; [|by destruct s]. intros _. by exists s.
  - destruct s as [|c' s].
    + split; [discriminate|]. intros [post H]. discriminate H.
    + simpl. destruct (Ascii.ascii_dec c c') as [->|Hne].
      * rewrite IH. split.
        -- intros [post ->]. by exists post.
        -- intros [post H]. rewrite app_cons_string in H. injection H as H. by exists post.
      * split; [discriminate|]. intros [post H].
        rewrite app_cons_string in H. injection H as Hc _. by destruct Hne.
Qed.

Lemma contains_spec pat s :
  contains pat s = true <-> exists pre post, s = pre +:+ pat +:+ post.
Proof.
  induction s as [|c s IH].
  - change (contains pat "") with (String.prefix pat "" || false).
    rewrite orb_false_r, prefix_spec. split.
    + intros [post H]. by exists "", post.
    + intros ([|] & post & H); [by exists post | discriminate H].
  - change (contains pat (String c s))
      with (String.prefix pat (String c s) || contains pat s).
    rewrite orb_true_iff, prefix_spec, IH. split.
    + intros [[post H] | (pre & post & H)].
      * by exists "", post.
      * exists (String c pre), post. by rewrite app_cons_string, <- H.
    + intros ([|c' pre] & post & H).
      * left. by exists post.
      * right. rewrite app_cons_string in H. injection H as _ H. by exists pre, post.
Qed.

(** X15: an execution failure is recovered from exactly when its class is
    RuntimeError or derives from it and its message has the text "Workflow
    did not execute cleanly" somewhere inside; the exit of a process is
    never recovered from. *)
Theorem recoverable_iff e :
  recoverable e = true <->
  exists mro pre post,
    e = Exc mro (pre +:+ "Workflow did not execute cleanly" +:+ post) /\
    "RuntimeError" ∈ mro.
Proof.
  unfold recoverable. rewrite andb_true_iff. destruct e as [mro msg | c]; simpl.
  - rewrite str_in_spec. change not_clean with "Workflow did not execute cleanly".
    rewrite contains_spec. split.
    + intros [Hin (pre & post & ->)]. by exists mro, pre, post.
    + intros (mro' & pre & post & Heq & Hin). injection Heq as -> ->.
      split; [done|]. by exists pre, post.
  - split; [by intros [? _]|]. by intros (? & ? & ? & ? & _).
Qed.

(** ** The exit status *)

Lemma main_supervise_exits W o s :
  engine_does_not_exit W ->
  wp (main_supervise W o)
     (fun r _ => r <> Ok tt /\ (exit_status r = 0 \/ exit_status r = 1)) s.
Proof.
  intros [Hwg Hrun].
  unfold main_supervise, main_finish, call_write_graph, call_run, gt0.
  wp_all; (split; [discriminate|]); simpl; auto.
  all: match goal with
       | H : wf_write_graph _ _ = Some ?e |- _ =>
           destruct e; [by right | by destruct (Hwg _ _ H)]
       | H : wf_run _ _ _ = Some ?e |- _ =>
           destruct e; [by right | by destruct (Hrun _ _ _ H)]
       end.
Qed.

(** X16: main never returns: every run ends in [sys.exit] or in an
    exception that nothing catches.  Unless rendering or running the graph
    ends the process itself, the exit status is 0 or 1, whatever the count
    of failing participants. *)
Theorem main_exit_status W o env :
  engine_does_not_exit W ->
  fst (main W o (initial env)) <> Ok tt /\
  (exit_status (fst (main W o (initial env))) = 0 \/
   exit_status (fst (main W o (initial env))) = 1).
Proof.
  intros Heng.
  apply (wp_run_eq (main W o)
           (fun r _ => r <> Ok tt /\ (exit_status r = 0 \/ exit_status r = 1))).
  unfold main, main_launch, main_build, initial. wp_run.
  case_match; wp_run; [by split; [|right]|].
  unfold wp at 1. simpl. by apply main_supervise_exits.
Qed.

Lemma main_exit_status_witness :
  exit_status (fst (main Sample.unclean Sample.defaults (initial Sample.env))) = 0 \/
  exit_status (fst (main Sample.unclean Sample.defaults (initial Sample.env))) = 1.
Proof.
  apply (main_exit_status Sample.unclean Sample.defaults Sample.env).
  split; discriminate.
Defined.
